(** * Feature-extraction transformers of [transform/__init__.py]

    A shallow embedding of the seven estimator classes of the module
    (spectrogram, summary statistics, whitening, flattening, function
    application, filtering, differencing) and the properties their
    specification states about them.

    Conventions.
    - A Python number is a rational ([Q]); arithmetic is exact, so float
      rounding and NaN are outside the model.  Integers that the code uses
      as sizes and indices are [nat] or [Z].
    - A numpy array is an [ndarray]: its shape and its elements in
      row-major order, as numpy stores a C-contiguous array.
    - A Python exception is a value of [exn]; code that may raise returns
      a [result].
    - Library routines (matplotlib's [specgram], numpy's [log10], the PCA
      solver, user supplied callables) are section variables. *)

From Stdlib Require Import QArith ZArith Lia Lqa String.
From stdpp Require Import base list.

Open Scope Q_scope.

(** ** Exceptions and results *)

Inductive exn : Type :=
| ValueError
| IndexError
| TypeError
| AssertionError
| AttributeError (attr : string)
| UnboundLocalError (name : string).

Inductive result (A : Type) : Type :=
| Ok (a : A)
| Raise (e : exn).

Arguments Ok {A} a.
Arguments Raise {A} e.

Definition bind {A B : Type} (r : result A) (k : A -> result B) : result B :=
  match r with
  | Ok a => k a
  | Raise e => Raise e
  end.

Notation "x <- r ;; k" := (bind r (fun x => k))
  (at level 100, r at next level, right associativity).

Definition is_ok {A : Type} (r : result A) : bool :=
  match r with Ok _ => true | Raise _ => false end.

(** A [for] loop over [enumerate xs] that threads a state and stops at the
    first exception. *)
Fixpoint for_enumerate {A S : Type} (body : nat -> A -> S -> result S)
    (i : nat) (xs : list A) (s : S) : result S :=
  match xs with
  | [] => Ok s
  | x :: xs' => s' <- body i x s ;; for_enumerate body (Datatypes.S i) xs' s'
  end.

(** ** Python numbers *)

Definition Qltb (a b : Q) : bool := negb (Qle_bool b a).

(** [int(q)]: truncation toward zero. *)
Definition py_int (q : Q) : Z := Z.quot (Qnum q) (Zpos (Qden q)).

(** ** numpy arrays *)

Definition vec : Type := list Q.

Record ndarray : Type := NDArray { shape : list nat; data : vec }.

Definition numel (s : list nat) : nat := foldr Nat.mul 1%nat s.

(** [a.size] *)
Definition size (a : ndarray) : nat := numel (shape a).


(** [a.shape[k]] *)
Definition shape_at (a : ndarray) (k : nat) : result nat :=
  match shape a !! k with
  | Some n => Ok n
  | None => Raise IndexError
  end.

(** [np.empty(s)]: the cells are uninitialised in numpy; they hold 0 here. *)
Definition np_empty (s : list nat) : ndarray := NDArray s (replicate (numel s) 0).

(** [a[i]] for an index [i] along the first axis (a view in numpy). *)
Definition item (a : ndarray) (i : nat) : ndarray :=
  let k := numel (tail (shape a)) in
  NDArray (tail (shape a)) (take k (drop (i * k) (data a))).

(** [for a_i in a]: the sub-arrays along the first axis; a 0-d array is not
    iterable. *)
Definition iter (a : ndarray) : result (list ndarray) :=
  match shape a with
  | [] => Raise TypeError
  | n :: _ => Ok (map (item a) (seq 0 n))
  end.

(** [a.flatten()] *)
Definition flatten_array (a : ndarray) : ndarray := NDArray [size a] (data a).

(** Overwrite [length vs] cells of [l] from offset [off] on. *)
Definition splice (l : vec) (off : nat) (vs : vec) : vec :=
  take off l ++ vs ++ drop (off + length vs) l.

(** Element [(r, c)] of a 2-D array with [w] columns. *)
Definition get2 (w : nat) (d : vec) (r c : nat) : Q := nth (r * w + c) d 0.

(** The elements of a 2-D array of shape [(h, w)] given by an index function. *)
Definition tabulate2 (h w : nat) (f : nat -> nat -> Q) : vec :=
  flat_map (fun r => map (f r) (seq 0 w)) (seq 0 h).

(** [a.T] of a 2-D array; numpy reverses the axes, so arrays of other
    dimensions are only covered for 0-d and 1-d (unchanged). *)
Definition transpose_array (a : ndarray) : ndarray :=
  match shape a with
  | [h; w] => NDArray [w; h] (tabulate2 w h (fun c r => get2 w (data a) r c))
  | _ => a
  end.

(** [a[:n]]: the first [n] sub-arrays along the first axis. *)
Definition take_rows (n : nat) (a : ndarray) : ndarray :=
  match shape a with
  | [] => a
  | h :: s => NDArray (Nat.min n h :: s) (take (Nat.min n h * numel s) (data a))
  end.

(** Broadcasting of a source to a target of shape [ts], for targets of one
    or two axes and sources of at most the target's dimension: the axes are
    aligned from the last one, and every source axis has the target's
    length or length 1. *)
Definition broadcast (ts : list nat) (src : ndarray) : result vec :=
  match ts, shape src with
  | [n], [m] =>
      if (m =? n)%nat then Ok (data src)
      else if (m =? 1)%nat then Ok (replicate n (nth 0 (data src) 0))
      else Raise ValueError
  | [h; w], [h'; w'] =>
      if (((h' =? h) || (h' =? 1)) && ((w' =? w) || (w' =? 1)))%nat
      then Ok (tabulate2 h w (fun r c =>
                 get2 w' (data src) (if (h' =? 1)%nat then 0%nat else r)
                                     (if (w' =? 1)%nat then 0%nat else c)))
      else Raise ValueError
  | [h; w], [w'] =>
      if ((w' =? w) || (w' =? 1))%nat
      then Ok (tabulate2 h w (fun _ c =>
                 nth (if (w' =? 1)%nat then 0%nat else c) (data src) 0))
      else Raise ValueError
  | _, _ => Raise ValueError
  end.

(** [a[i, ...] = src]: assignment to the [i]-th sub-array along the first
    axis, with broadcasting of [src]. *)
Definition assign_item (a : ndarray) (i : nat) (src : ndarray) : result ndarray :=
  match shape a with
  | [] => Raise IndexError
  | n :: s =>
      if (i <? n)%nat
      then vs <- broadcast s src ;;
           Ok (NDArray (shape a) (splice (data a) (i * numel s) vs))
      else Raise IndexError
  end.

(** [a[i, lo:hi] = src] on a 2-D array; a slice is clamped to the row. *)
Definition assign_slice (a : ndarray) (i lo hi : nat) (src : ndarray) : result ndarray :=
  match shape a with
  | [n; w] =>
      if (i <? n)%nat
      then let hi' := Nat.min hi w in
           let lo' := Nat.min lo hi' in
           vs <- broadcast [(hi' - lo')%nat] src ;;
           Ok (NDArray (shape a) (splice (data a) (i * w + lo') vs))
      else Raise IndexError
  | _ => Raise IndexError
  end.

(** [a.reshape(s)] *)
Definition reshape (a : ndarray) (s : list nat) : result ndarray :=
  if (numel s =? size a)%nat then Ok (NDArray s (data a)) else Raise ValueError.

(** [a.reshape(s + [-1])]: the last length is inferred, which numpy refuses
    when the known lengths multiply to 0 or do not divide the size. *)
Definition reshape_infer_last (a : ndarray) (s : list nat) : result ndarray :=
  let known := numel s in
  if ((known =? 0) || negb (size a mod known =? 0))%nat then Raise ValueError
  else Ok (NDArray (s ++ [(size a / known)%nat]) (data a)).

Fixpoint mapM {A B : Type} (f : A -> result B) (l : list A) : result (list B) :=
  match l with
  | [] => Ok []
  | x :: l' => y <- f x ;; ys <- mapM f l' ;; Ok (y :: ys)
  end.

(** [a.searchsorted(v, side='right')]: numpy's binary search, which keeps
    [lo <= hi] and moves [lo] past every probed element that is [<= v]. *)
Fixpoint bsearch_right (fuel : nat) (a : vec) (v : Q) (lo hi : nat) : nat :=
  match fuel with
  | O => lo
  | Datatypes.S fuel' =>
      if (lo <? hi)%nat then
        let mid := (lo + (hi - lo) / 2)%nat in
        if Qle_bool (nth mid a 0) v
        then bsearch_right fuel' a v (Datatypes.S mid) hi
        else bsearch_right fuel' a v lo mid
      else lo
  end.

Definition searchsorted_right (a : vec) (v : Q) : nat :=
  bsearch_right (Datatypes.S (length a)) a v 0 (length a).

(** ** SpectrogramTransformer *)

Module SpectrogramTransformer.

Inductive np_dtype : Type := float32 | float64.

(** The values the [window] argument takes: [None], a string, or a
    callable on one segment. *)
Inductive window_arg : Type :=
| WNone
| WStr (s : string)
| WFunc (f : vec -> vec).

Record t : Type := Build {
  pad_to : option Z;
  NFFT : Z;
  noverlap : Q;
  clip : Q;
  dtype : np_dtype;
  log : bool;
  flatten : bool;
  transpose : bool;
  window : window_arg
}.

(** [__init__]: every argument is stored as given, except a [noverlap]
    below 1, which is taken as a fraction of [NFFT]. *)
Definition init (pad_to : option Z) (NFFT : Z) (noverlap clip : Q)
    (dtype : np_dtype) (log flatten transpose : bool) (window : window_arg) : t :=
  let noverlap :=
    if Qltb noverlap 1 then inject_Z (py_int (inject_Z NFFT * noverlap))
    else noverlap in
  Build pad_to NFFT noverlap clip dtype log flatten transpose window.

(** The constructor's default arguments. *)
Definition default : t :=
  init None 256 200 1000 float32 true true false WNone.

(** The clip step of [transform]: rows of frequencies above [clip] are cut. *)
Definition clip_step (self : t) (freqs : vec) (Pxx : ndarray) : ndarray :=
  if Qltb (clip self) 1000 then
    let n_fx := searchsorted_right freqs (clip self) in
    take_rows n_fx Pxx
  else Pxx.

(** The same place in the pipeline with clipping disabled. *)
Definition clip_disabled (self : t) (freqs : vec) (Pxx : ndarray) : ndarray := Pxx.

Section Library.

(** [mlab.specgram(x, NFFT, Fs, pad_to, noverlap, window)], returning
    the power matrix, the frequencies and the segment times. *)
Variable specgram :
  ndarray -> Z -> Q -> option Z -> Q -> window_arg -> result (ndarray * vec * vec).
Variable log10 : Q -> Q.
Variables window_hanning window_none : vec -> vec.

Definition resolve_window (w : window_arg) : window_arg :=
  let w := match w with WNone => WFunc window_hanning | _ => w end in
  match w with
  | WStr s => if String.eqb s "none" then WFunc window_none else w
  | _ => w
  end.

(** The body of the loop up to the allocation of the output: the
    spectrogram of one signal, after the log, clip and transpose steps.
    [clipper] is the clip step. *)
Definition spectrum (clipper : t -> vec -> ndarray -> ndarray)
    (self : t) (w : window_arg) (X_i : ndarray) : result ndarray :=
  r <- specgram X_i (NFFT self) 2000 (pad_to self) (noverlap self) w ;;
  let '(Pxx, freqs, _) := r in
  let Pxx :=
    if log self
    then NDArray (shape Pxx) (map (fun p => 10 * log10 p) (data Pxx))
    else Pxx in
  let Pxx := clipper self freqs Pxx in
  let Pxx := if transpose self then transpose_array Pxx else Pxx in
  Ok Pxx.

(** The rest of the loop body: allocate [X_prime] on the first signal,
    then write row [i]. [N] is [X.shape[0]]. *)
Definition store (self : t) (N i : nat) (Pxx : ndarray)
    (X_prime : option ndarray) : result (option ndarray) :=
  out <- match X_prime with
         | Some a => Ok a
         | None =>
             if flatten self then Ok (np_empty [N; size Pxx])
             else h <- shape_at Pxx 0 ;;
                  w <- shape_at Pxx 1 ;;
                  Ok (np_empty [N; h; w])
         end ;;
  out <- (if flatten self
          then assign_item out i (flatten_array Pxx)
          else assign_item out i Pxx) ;;
  Ok (Some out).

Definition transform_with (clipper : t -> vec -> ndarray -> ndarray)
    (self : t) (X : ndarray) : result (option ndarray) :=
  let w := resolve_window (window self) in
  rows <- iter X ;;
  for_enumerate
    (fun i X_i X_prime =>
       Pxx <- spectrum clipper self w X_i ;;
       store self (length rows) i Pxx X_prime)
    0 rows None.

(** [transform]; [None] is the value of [X_prime] when the loop never ran. *)
Definition transform : t -> ndarray -> result (option ndarray) :=
  transform_with clip_step.

(** [transform] without the clip step. *)
Definition transform_clip_disabled : t -> ndarray -> result (option ndarray) :=
  transform_with clip_disabled.

End Library.

(** *** A stand-in for the library, to run the model

    It rejects [NFFT <= noverlap] as mlab's [specgram] asserts, and
    otherwise returns the power spectrum of an all-zero signal of the
    length of [x]: [pad/2 + 1] rows of frequencies [k * Fs / pad] and one
    column per segment of length [NFFT] at stride [NFFT - noverlap]. *)
Definition specgram_zero (x : ndarray) (NFFT : Z) (Fs : Q) (pad_to : option Z)
    (noverlap : Q) (w : window_arg) : result (ndarray * vec * vec) :=
  if Qle_bool (inject_Z NFFT) noverlap then Raise AssertionError
  else
    let pad := match pad_to with Some p => p | None => NFFT end in
    let F := Z.to_nat (pad / 2 + 1) in
    let len := Z.max (Z.of_nat (length (data x))) NFFT in
    let step := (NFFT - py_int noverlap)%Z in
    let W := Z.to_nat ((len - NFFT) / step + 1) in
    Ok (NDArray [F; W] (replicate (F * W) 0),
        map (fun k => inject_Z (Z.of_nat k) * Fs / inject_Z pad) (seq 0 F),
        map (fun k => inject_Z (Z.of_nat k * step) / Fs) (seq 0 W)).

Definition log10_stub (q : Q) : Q := q.
Definition window_stub (v : vec) : vec := v.

Definition run (self : t) (X : ndarray) : result (option ndarray) :=
  transform specgram_zero log10_stub window_stub window_stub self X.

End SpectrogramTransformer.

(** ** StatsTransformer *)

Module StatsTransformer.

Definition Qmin (a b : Q) : Q := if Qle_bool a b then a else b.
Definition Qmax (a b : Q) : Q := if Qle_bool a b then b else a.

Definition Qsum (v : vec) : Q := foldr Qplus 0 v.

(** [np.min], [np.max] and [np.ptp] of the values along one axis: numpy
    raises on a reduction over no values, these have no identity. *)
Definition np_min (v : vec) : result Q :=
  match v with
  | [] => Raise ValueError
  | x :: v' => Ok (foldl Qmin x v')
  end.

Definition np_max (v : vec) : result Q :=
  match v with
  | [] => Raise ValueError
  | x :: v' => Ok (foldl Qmax x v')
  end.

Definition np_ptp (v : vec) : result Q :=
  hi <- np_max v ;; lo <- np_min v ;; Ok (hi - lo).

(** [np.mean], [np.var] and [np.median]; over no values numpy yields nan with a
    warning, where the division by the count 0 gives 0 here. *)
Definition mean (v : vec) : Q := Qsum v / inject_Z (Z.of_nat (length v)).

Definition np_mean (v : vec) : result Q := Ok (mean v).

Definition np_var (v : vec) : result Q :=
  let m := mean v in
  Ok (mean (map (fun x => (x - m) * (x - m)) v)).

Fixpoint insert_sorted (x : Q) (v : vec) : vec :=
  match v with
  | [] => [x]
  | y :: v' => if Qle_bool x y then x :: v else y :: insert_sorted x v'
  end.

Definition sort (v : vec) : vec := foldr insert_sorted [] v.

Definition np_median (v : vec) : result Q :=
  let sorted := sort v in
  let index := (length v / 2)%nat in
  if (length v mod 2 =? 1)%nat then Ok (nth index sorted 0)
  else Ok (mean (take 2 (drop (index - 1) sorted))).

(** [stat(a, axis=axis)] for a reduction [stat] of a 2-D array [a]; on a
    1-D array only [axis = 0] exists. Arrays of more axes are not
    modelled. *)
Definition reduce_axis (stat : vec -> result Q) (a : ndarray) (axis : Z)
    : result ndarray :=
  match shape a with
  | [h; w] =>
      if (axis =? 0)%Z then
        vals <- mapM (fun c => stat (map (fun r => get2 w (data a) r c) (seq 0 h)))
                     (seq 0 w) ;;
        Ok (NDArray [w] vals)
      else if (axis =? 1)%Z then
        vals <- mapM (fun r => stat (take w (drop (r * w) (data a)))) (seq 0 h) ;;
        Ok (NDArray [h] vals)
      else Raise ValueError
  | [n] =>
      if (axis =? 0)%Z then v <- stat (data a) ;; Ok (NDArray [] [v])
      else Raise ValueError
  | _ => Raise ValueError
  end.

Record t : Type := Build {
  stats : list (vec -> result Q);
  axis : Z
}.

Definition init (axis : Z) : t :=
  Build [np_min; np_max; np_mean; np_var; np_median; np_ptp] axis.

Definition transform (self : t) (X : ndarray) : result ndarray :=
  let n_stats := length (stats self) in
  n_bins <- (if (axis self =? 0)%Z then b <- shape_at X 2 ;; Ok (Some b)
             else if (axis self =? 1)%Z then b <- shape_at X 1 ;; Ok (Some b)
             else Ok None) ;;
  N <- shape_at X 0 ;;
  n_bins <- match n_bins with
            | Some b => Ok b
            | None => Raise (UnboundLocalError "n_bins")
            end ;;
  let out := np_empty [N; (n_stats * n_bins)%nat] in
  for_enumerate
    (fun _ i out =>
       let X_i := item X i in
       for_enumerate
         (fun j stat out =>
            vals <- reduce_axis stat X_i (axis self) ;;
            assign_slice out i (n_bins * j) (n_bins * (j + 1)) vals)
         0 (stats self) out)
    0 (seq 0 N) out.

End StatsTransformer.

(** ** WhitenerTransformer *)

Module WhitenerTransformer.

Section Library.

(** The PCA estimator object of the library: [PCA(n_components,
    whiten=True)] builds one, [pca.fit(X, y)] updates it in place (also when
    it raises) and [pca.transform(X)] reads it. *)
Variable pca_model : Type.
Variable pca_new : option nat -> pca_model.
Variable pca_fit : pca_model -> ndarray -> ndarray -> result unit * pca_model.
Variable pca_transform : pca_model -> ndarray -> result ndarray.

(** An instance; [pca] is [None] while the attribute does not exist. *)
Record t : Type := Build {
  n_components : option nat;
  pca : option pca_model
}.

Definition init (n_components : option nat) : t := Build n_components None.

(** [_flatten(X)] with [y=None]. *)
Definition flatten_X (X : ndarray) : result ndarray :=
  n <- shape_at X 0 ;;
  m <- shape_at X 1 ;;
  reshape X ((n * m)%nat :: drop 2 (shape X)).

(** [_flatten(X, y)] with labels [y], a 1-D array: [np.hstack] of
    [shape[1]] copies of it. *)
Definition flatten_Xy (X : ndarray) (y : vec) : result (ndarray * ndarray) :=
  _X <- flatten_X X ;;
  m <- shape_at X 1 ;;
  let _y := concat (replicate m y) in
  Ok (_X, NDArray [length _y] _y).

(** [_X, _y = self._flatten(X, y)]: with [y=None] the single array
    [_flatten] returns is unpacked, which takes its two sub-arrays. *)
Definition fit_arguments (X : ndarray) (y : option vec) : result (ndarray * ndarray) :=
  match y with
  | Some y => flatten_Xy X y
  | None =>
      _X <- flatten_X X ;;
      rows <- iter _X ;;
      match rows with
      | [a; b] => Ok (a, b)
      | _ => Raise ValueError
      end
  end.

(** [fit] returns its outcome and the instance as the call leaves it: the
    attribute [pca] is assigned before the estimator is fitted, so it exists
    also when the fitting raises. *)
Definition fit (self : t) (X : ndarray) (y : option vec) : result unit * t :=
  match fit_arguments X y with
  | Raise e => (Raise e, self)
  | Ok (_X, _y) =>
      let (r, m) := pca_fit (pca_new (n_components self)) _X _y in
      (r, Build (n_components self) (Some m))
  end.

Definition transform (self : t) (X : ndarray) : result ndarray :=
  match pca self with
  | None => Raise (AttributeError "pca")
  | Some m =>
      flat <- flatten_X X ;;
      _X <- pca_transform m flat ;;
      reshape_infer_last _X (removelast (shape X))
  end.

End Library.

End WhitenerTransformer.

(** ** FlattenTransformer *)

Module FlattenTransformer.

Record t : Type := Build { scale : Q }.

Definition init (scale : Q) : t := Build scale.

Definition transform (self : t) (X : ndarray) : result ndarray :=
  N <- shape_at X 0 ;;
  A <- shape_at X 1 ;;
  B <- shape_at X 2 ;;
  rows <- iter X ;;
  out <- for_enumerate (fun i X_i out => assign_item out i (flatten_array X_i))
           0 rows (np_empty [N; (A * B)%nat]) ;;
  Ok (NDArray (shape out) (map (fun x => x * scale self) (data out))).

End FlattenTransformer.

(** ** FuncTransformer *)

Module FuncTransformer.

Record t : Type := Build {
  func : ndarray -> result ndarray   (* [func] applied to its [func_args] *)
}.

Definition init (func : ndarray -> result ndarray) : t := Build func.

Definition transform (self : t) (X : ndarray) : result ndarray :=
  N <- shape_at X 0 ;;
  _X <- reshape_infer_last X [N] ;;
  _Xt <- func self X ;;
  _X <- reshape _Xt (shape X) ;;
  Ok _X.

End FuncTransformer.

(** ** FilterTransformer *)

Module FilterTransformer.

(** numpy's global random state: the uniform draws it will produce, and
    how many were consumed. *)
Record RandomState : Type := MkRandom { draws : nat -> Q; consumed : nat }.

(** [np.random.rand(n)] *)
Definition rand (n : nat) (g : RandomState) : vec * RandomState :=
  (map (draws g) (seq (consumed g) n), MkRandom (draws g) (consumed g + n)).

(** What a call leaves behind besides its result: the caller's array [X]
    and the random state. *)
Record world : Type := World { input : ndarray; random : RandomState }.

Record t : Type := Build {
  filter : ndarray -> result ndarray;   (* [filter_] applied to its [filter_args] *)
  noise : bool
}.

Definition init (filter_ : ndarray -> result ndarray) (noise : bool) : t :=
  Build filter_ noise.

(** [1e-4 * np.random.rand(n) - 0.5], as Python parses it. *)
Definition noise_value (u : Q) : Q := (1 # 10000) * u - (1 # 2).

Definition make_noise (n : nat) (g : RandomState) : ndarray * RandomState :=
  let '(us, g') := rand n g in (NDArray [n] (map noise_value us), g').

(** [x += noise] on the view [x = X[i]]: the sum is written through to
    the cells of [X]. *)
Definition iadd_item (X : ndarray) (i : nat) (noise : ndarray) : result ndarray :=
  let x := item X i in
  vs <- broadcast (shape x) noise ;;
  Ok (NDArray (shape X)
        (splice (data X) (i * size x) (zip_with Qplus (data x) vs))).

(** One iteration of the loop, on the pair of [X] and [out]. *)
Definition step (self : t) (noise : option ndarray) (i : nat)
    (st : ndarray * ndarray) : result (ndarray * ndarray) * ndarray :=
  let '(X, out) := st in
  match (match noise with
         | Some nz => iadd_item X i nz
         | None => Ok X
         end) with
  | Raise e => (Raise e, X)
  | Ok X' =>
      match (y <- filter self (item X' i) ;; assign_item out i y) with
      | Raise e => (Raise e, X')
      | Ok out' => (Ok (X', out'), X')
      end
  end.

(** The loop; the second component is [X] as the loop leaves it, also when
    an iteration raises. *)
Fixpoint loop (self : t) (noise : option ndarray) (idx : list nat)
    (st : ndarray * ndarray) : result (ndarray * ndarray) * ndarray :=
  match idx with
  | [] => (Ok st, fst st)
  | i :: idx' =>
      match step self noise i st with
      | (Raise e, X') => (Raise e, X')
      | (Ok st', _) => loop self noise idx' st'
      end
  end.

(** [transform(X)] in a world that holds [X]: the result and the world
    after the call. *)
Definition transform (self : t) (w : world) : result ndarray * world :=
  let X := input w in
  let out := np_empty (shape X) in
  match (if noise self
         then n <- shape_at X 1 ;; Ok (Some n)
         else Ok None) with
  | Raise e => (Raise e, w)
  | Ok on =>
      let '(nz, g) :=
        match on with
        | Some n => let '(a, g) := make_noise n (random w) in (Some a, g)
        | None => (None, random w)
        end in
      match shape X with
      | [] => (Raise TypeError, World X g)
      | N :: _ =>
          match loop self nz (seq 0 N) (X, out) with
          | (Raise e, X') => (Raise e, World X' g)
          | (Ok (_, out'), X') => (Ok out', World X' g)
          end
      end
  end.

End FilterTransformer.

(** ** DiffTransformer *)

Module DiffTransformer.

Record t : Type := Build { n : Z; flatten : bool }.

Definition init (n : Z) (flatten : bool) : t := Build n flatten.

(** Element [(i, r, c)] of an array of shape [(_, t, k)]. *)
Definition get3 (t k : nat) (d : vec) (i r c : nat) : Q :=
  nth ((i * t + r) * k + c) d 0.

(** [a[:, 1:] - a[:, :-1]]: one difference along axis 1. The axes after
    the second are taken together, as [k] cells per position. *)
Definition diff1 (a : ndarray) : result ndarray :=
  match shape a with
  | N :: t :: rest =>
      let k := numel rest in
      Ok (NDArray (N :: (t - 1)%nat :: rest)
            (flat_map (fun i =>
               flat_map (fun r =>
                 map (fun c => get3 t k (data a) i (r + 1) c - get3 t k (data a) i r c)
                     (seq 0 k))
                 (seq 0 (t - 1)))
               (seq 0 N)))
  | _ => Raise IndexError
  end.

Fixpoint diff_iter (count : nat) (a : ndarray) : result ndarray :=
  match count with
  | O => Ok a
  | Datatypes.S count' => a' <- diff1 a ;; diff_iter count' a'
  end.

(** [np.diff(a, n=n, axis=1)] *)
Definition np_diff (a : ndarray) (n : Z) : result ndarray :=
  if (n =? 0)%Z then Ok a
  else if (n <? 0)%Z then Raise ValueError
  else diff_iter (Z.to_nat n) a.

Definition transform (self : t) (X : ndarray) : result ndarray :=
  diff <- np_diff X (n self) ;;
  if flatten self then
    d0 <- shape_at diff 0 ;;
    d1 <- shape_at diff 1 ;;
    d2 <- shape_at diff 2 ;;
    reshape diff [d0; (d1 * d2)%nat]
  else Ok diff.

End DiffTransformer.

(** ** Specification-side notions *)


(** The first difference of a sequence of samples; the [n]-th difference is
    [Nat.iter n delta]. *)
Definition delta (f : nat -> Q) : nat -> Q := fun t => f (t + 1)%nat - f t.

(** The value of a result, [d] for an exception. *)
Definition result_get {A : Type} (d : A) (r : result A) : A :=
  match r with Ok a => a | Raise _ => d end.



(** A vector of frequencies in ascending order, as [specgram] returns them
    and [searchsorted] expects them. *)
Definition ascending (a : vec) : Prop :=
  forall i j, (i <= j < length a)%nat -> nth i a 0 <= nth j a 0.

(** The cells of a batch [d] of rows of length [T] after the vector [nz] was
    added to each of its first [j] rows. *)
Definition noisy_rows (T : nat) (nz d : vec) (j : nat) : vec :=
  zip_with Qplus (take (j * T) d) (concat (replicate j nz)) ++ drop (j * T) d.

(** * Properties *)

(** ** Python numbers *)

Lemma Qltb_lt (a b : Q) : Qltb a b = true <-> a < b.
Proof.
  unfold Qltb. rewrite negb_true_iff, <- not_true_iff_false, Qle_bool_iff.
  split; [apply Qnot_le_lt | apply Qlt_not_le].
Qed.

Lemma Qltb_ge (a b : Q) : Qltb a b = false <-> b <= a.
Proof.
  unfold Qltb. rewrite negb_false_iff. apply Qle_bool_iff.
Qed.


(** ** Loops *)

Lemma for_enumerate_ext {A S : Type} (f g : nat -> A -> S -> result S) xs :
  (forall i x s, f i x s = g i x s) ->
  forall i s, for_enumerate f i xs s = for_enumerate g i xs s.
Proof.
  intros E. induction xs as [|x xs IH]; intros i s; simpl; [done|].
  rewrite E. destruct (g i x s); simpl; [apply IH | done].
Qed.

(** ** numpy arrays *)

Lemma bsearch_right_le fuel a v lo hi :
  (lo <= hi)%nat -> (bsearch_right fuel a v lo hi <= hi)%nat.
Proof.
  revert lo hi. induction fuel as [|fuel IH]; intros lo hi Hle; cbn [bsearch_right]; [done|].
  destruct (Nat.ltb_spec lo hi) as [Hlt|]; [|done].
  assert ((hi - lo) / 2 < hi - lo)%nat by (apply Nat.div_lt; lia).
  destruct (Qle_bool _ _).
  - apply IH. lia.
  - etransitivity; [apply IH|]; lia.
Qed.

Lemma searchsorted_right_le a v : (searchsorted_right a v <= length a)%nat.
Proof. apply bsearch_right_le. lia. Qed.

Lemma take_rows_shape n a : (hd 0%nat (shape (take_rows n a)) <= hd 0%nat (shape a))%nat.
Proof.
  unfold take_rows. destruct (shape a) as [|h s] eqn:E; simpl.
  - by rewrite E.
  - lia.
Qed.

(** ** SpectrogramTransformer *)

Section SpectrogramFacts.

Import SpectrogramTransformer.

Variable specgram :
  ndarray -> Z -> Q -> option Z -> Q -> window_arg -> result (ndarray * vec * vec).
Variable log10 : Q -> Q.
Variables window_hanning window_none : vec -> vec.

Abbreviation transform := (transform specgram log10 window_hanning window_none).
Abbreviation transform_clip_disabled :=
  (transform_clip_disabled specgram log10 window_hanning window_none).

Lemma clip_step_rows self freqs Pxx :
  (hd 0%nat (shape (clip_step self freqs Pxx)) <= hd 0%nat (shape Pxx))%nat.
Proof.
  unfold clip_step. destruct (Qltb _ _); [apply take_rows_shape | done].
Qed.

Lemma clip_step_off self freqs Pxx :
  1000 <= clip self -> clip_step self freqs Pxx = clip_disabled self freqs Pxx.
Proof.
  intros H. unfold clip_step, clip_disabled.
  by apply Qltb_ge in H as ->.
Qed.

Lemma spectrum_clip_off self w X_i :
  1000 <= clip self ->
  spectrum specgram log10 clip_step self w X_i
  = spectrum specgram log10 clip_disabled self w X_i.
Proof.
  intros H. unfold spectrum.
  destruct (specgram _ _ _ _ _ _) as [[[Pxx freqs] ts]|e]; simpl; [|done].
  by rewrite clip_step_off.
Qed.

(** C10. On a batch of no signals the loop never runs, nothing is
    allocated, and [transform] returns [None], whatever the configuration
    and the library do: not an empty array of shape [(0, F*W)]. *)
Theorem transform_of_empty_batch_is_None :
  forall (self : t) (s : list nat) (d : vec),
    transform self (NDArray (0%nat :: s) d) = Ok None.
Proof. reflexivity. Qed.

(** C2. The clip step never adds frequency rows to the spectrogram of a
    signal, and from [clip = 1000.0] on [transform] returns what it returns
    with the clip step taken out. *)
Theorem clip_never_adds_rows_and_is_off_from_1000 :
  (forall self freqs Pxx,
     (hd 0%nat (shape (clip_step self freqs Pxx)) <= hd 0%nat (shape Pxx))%nat) /\
  (forall self X, 1000 <= clip self -> transform self X = transform_clip_disabled self X).
Proof.
  split; [apply clip_step_rows|].
  intros self X H. unfold SpectrogramTransformer.transform,
    SpectrogramTransformer.transform_clip_disabled, transform_with.
  destruct (iter X) as [rows|e]; simpl; [|done].
  apply for_enumerate_ext. intros i x s.
  by rewrite spectrum_clip_off.
Qed.

(** C1, as the code has it. The constructor checks nothing: it builds the
    instance also when [noverlap >= NFFT]. Where the library's [specgram]
    refuses such an overlap, [transform] raises that error on the first
    signal of a batch that has one, before any output exists; on a batch of
    no signals it returns [None] and raises nothing. *)
Theorem invalid_overlap_fails_on_first_signal :
  (forall x N Fs p nov w,
     inject_Z N <= nov -> is_ok (specgram x N Fs p nov w) = false) ->
  forall pad N_FFT nov clip dt lg fl tr w,
    let self := init pad N_FFT nov clip dt lg fl tr w in
    inject_Z (NFFT self) <= noverlap self ->
    forall n s d,
      (n <> 0%nat -> exists e, transform self (NDArray (n :: s) d) = Raise e) /\
      transform self (NDArray (0%nat :: s) d) = Ok None.
Proof.
  intros Hlib pad N_FFT nov clip dt lg fl tr w self Hbad n s d.
  split; [|reflexivity].
  intros Hn. destruct n as [|n]; [done|].
  unfold SpectrogramTransformer.transform, transform_with, iter. simpl.
  unfold spectrum.
  specialize (Hlib (item (NDArray (S n :: s) d) 0) (NFFT self) 2000 (pad_to self)
                (noverlap self) (resolve_window window_hanning window_none (window self)) Hbad).
  destruct (specgram _ _ _ _ _ _) as [r|e]; [done|].
  by exists e.
Qed.

End SpectrogramFacts.


Lemma specgram_zero_refuses x N Fs p nov w :
  inject_Z N <= nov ->
  is_ok (SpectrogramTransformer.specgram_zero x N Fs p nov w) = false.
Proof.
  intros H. unfold SpectrogramTransformer.specgram_zero.
  apply Qle_bool_iff in H. by rewrite H.
Defined.

Lemma clip_never_adds_rows_and_is_off_from_1000_witness :
  let self := SpectrogramTransformer.default in
  let X := NDArray [2; 300]%nat (replicate 600 0) in
  1000 <= SpectrogramTransformer.clip self /\
  SpectrogramTransformer.run self X
  = SpectrogramTransformer.transform_clip_disabled
      SpectrogramTransformer.specgram_zero SpectrogramTransformer.log10_stub
      SpectrogramTransformer.window_stub SpectrogramTransformer.window_stub self X.
Proof.
  intros self X.
  assert (1000 <= SpectrogramTransformer.clip self) as H by (unfold Qle; simpl; lia).
  split; [exact H|].
  exact (proj2 (clip_never_adds_rows_and_is_off_from_1000
                  SpectrogramTransformer.specgram_zero SpectrogramTransformer.log10_stub
                  SpectrogramTransformer.window_stub SpectrogramTransformer.window_stub)
               self X H).
Defined.

Lemma invalid_overlap_fails_on_first_signal_witness :
  let self := SpectrogramTransformer.init None 256 300 1000
                SpectrogramTransformer.float32 true true false SpectrogramTransformer.WNone in
  inject_Z (SpectrogramTransformer.NFFT self) <= SpectrogramTransformer.noverlap self /\
  (exists e, SpectrogramTransformer.run self (NDArray [1; 300]%nat (replicate 300 0)) = Raise e) /\
  SpectrogramTransformer.run self (NDArray [0; 300]%nat []) = Ok None.
Proof.
  intros self.
  assert (inject_Z (SpectrogramTransformer.NFFT self) <= SpectrogramTransformer.noverlap self)
    as H by (unfold Qle; simpl; lia).
  split; [exact H|].
  destruct (invalid_overlap_fails_on_first_signal
              SpectrogramTransformer.specgram_zero SpectrogramTransformer.log10_stub
              SpectrogramTransformer.window_stub SpectrogramTransformer.window_stub
              specgram_zero_refuses
              None 256%Z 300 1000 SpectrogramTransformer.float32 true true false
              SpectrogramTransformer.WNone H 1%nat [300%nat] (replicate 300 0))
    as [Hfail _].
  split; [apply Hfail; discriminate | reflexivity].
Defined.

(** C1, as the claim has it, fails: an instance with [noverlap = 300] and
    [NFFT = 256] is built, and its first [transform], on a batch of no
    signals, returns [None] without an error, even with a library that
    refuses the overlap at every call. *)
Lemma invalid_overlap_not_rejected_on_empty_batch :
  let self := SpectrogramTransformer.init None 256 300 1000
                SpectrogramTransformer.float32 true true false SpectrogramTransformer.WNone in
  inject_Z (SpectrogramTransformer.NFFT self) <= SpectrogramTransformer.noverlap self /\
  SpectrogramTransformer.run self (NDArray [0; 4000]%nat []) = Ok None /\
  ~ (exists e, SpectrogramTransformer.run self (NDArray [0; 4000]%nat []) = Raise e).
Proof.
  intros self. split; [unfold Qle; simpl; lia|].
  split; [reflexivity|]. intros [e He]. discriminate He.
Qed.


(** ** WhitenerTransformer *)

(** C8. An instance on which [fit] was never called has no [pca]
    attribute, and [transform] on it raises the [AttributeError] of that
    missing attribute for every input, before anything is computed. *)
Theorem transform_before_fit_raises :
  forall (pca_model : Type) (pca_transform : pca_model -> ndarray -> result ndarray),
    (forall n_components,
       WhitenerTransformer.pca pca_model (WhitenerTransformer.init pca_model n_components) = None) /\
    (forall (self : WhitenerTransformer.t pca_model) (X : ndarray),
       WhitenerTransformer.pca pca_model self = None ->
       WhitenerTransformer.transform pca_model pca_transform self X
       = Raise (AttributeError "pca")).
Proof.
  intros pca_model pca_transform. split; [reflexivity|].
  intros self X H. unfold WhitenerTransformer.transform. by rewrite H.
Qed.

Lemma transform_before_fit_raises_witness :
  let self := WhitenerTransformer.init unit (Some 2%nat) in
  WhitenerTransformer.pca unit self = None /\
  WhitenerTransformer.transform unit (fun _ a => Ok a) self (NDArray [2; 2; 2]%nat (replicate 8 1))
  = Raise (AttributeError "pca").
Proof.
  intros self.
  assert (WhitenerTransformer.pca unit self = None) as H by reflexivity.
  split; [exact H|].
  exact (proj2 (transform_before_fit_raises unit (fun _ a => Ok a)) self
               (NDArray [2; 2; 2]%nat (replicate 8 1)) H).
Defined.

(** ** FuncTransformer *)

(** C9. The last step of [transform] is numpy's [reshape] to the shape of
    the input, which checks the element counts itself: when the function's
    output has another count than the input, [transform] raises a shape
    error, and whenever [transform] returns, the counts agree and the
    result is the function's output in the input's shape. *)
Theorem func_output_count_is_checked :
  forall (self : FuncTransformer.t) (X : ndarray),
    (forall Y, FuncTransformer.func self X = Ok Y -> size Y <> size X ->
       FuncTransformer.transform self X = Raise ValueError \/
       FuncTransformer.transform self X = Raise IndexError) /\
    (forall Z, FuncTransformer.transform self X = Ok Z ->
       exists Y, FuncTransformer.func self X = Ok Y /\ size Y = size X /\
                 shape Z = shape X /\ data Z = data Y).
Proof.
  intros self X. unfold FuncTransformer.transform, shape_at.
  destruct (shape X !! 0%nat) as [N|]; simpl.
  2: { split; [auto | discriminate]. }
  destruct (reshape_infer_last X [N]) as [_X|e] eqn:E1; simpl.
  2: { unfold reshape_infer_last in E1. destruct (_ || _); [|discriminate].
       injection E1 as <-. split; [auto | discriminate]. }
  destruct (FuncTransformer.func self X) as [Y'|e]; simpl.
  2: { split; [discriminate | discriminate]. }
  unfold reshape. fold (size X).
  destruct (Nat.eqb_spec (size X) (size Y')) as [Heq|Hne]; simpl.
  - split.
    + intros Y [= <-] Hne. congruence.
    + intros Z [= <-]. exists Y'. simpl. auto.
  - split; [auto | discriminate].
Qed.

Lemma func_output_count_is_checked_witness :
  let self := FuncTransformer.init (fun _ => Ok (NDArray [5]%nat [1; 2; 3; 4; 5])) in
  let X := NDArray [1; 2; 3]%nat [1; 2; 3; 4; 5; 9] in
  (FuncTransformer.func self X = Ok (NDArray [5]%nat [1; 2; 3; 4; 5]) /\
   size (NDArray [5]%nat [1; 2; 3; 4; 5]) <> size X) /\
  (FuncTransformer.transform self X = Raise ValueError \/
   FuncTransformer.transform self X = Raise IndexError).
Proof.
  intros self X.
  assert (FuncTransformer.func self X = Ok (NDArray [5]%nat [1; 2; 3; 4; 5])) as H1
    by reflexivity.
  assert (size (NDArray [5]%nat [1; 2; 3; 4; 5]) <> size X) as H2 by (vm_compute; lia).
  split; [exact (conj H1 H2)|].
  exact (proj1 (func_output_count_is_checked self X) _ H1 H2).
Defined.

(** ** FilterTransformer *)

Lemma loop_without_noise_keeps_input self idx X out :
  snd (FilterTransformer.loop self None idx (X, out)) = X /\
  forall X' out', fst (FilterTransformer.loop self None idx (X, out)) = Ok (X', out') -> X' = X.
Proof.
  revert out. induction idx as [|i idx IH]; intros out; simpl.
  - split; [done|]. by intros X' out' [= <- _].
  - destruct (FilterTransformer.filter self (item X i)) as [y|e]; simpl.
    2: { split; [done | discriminate]. }
    destruct (assign_item out i y) as [out1|e]; simpl.
    2: { split; [done | discriminate]. }
    apply IH.
Qed.

(** The path without noise leaves the caller's array and the random state
    as they were, whatever the filter returns. *)
Lemma transform_without_noise_keeps_world self w :
  FilterTransformer.noise self = false ->
  snd (FilterTransformer.transform self w) = w.
Proof.
  intros H. unfold FilterTransformer.transform. rewrite H.
  destruct w as [X g]. simpl.
  destruct (shape X) as [|N s]; [done|].
  pose proof (loop_without_noise_keeps_input self (seq 0 N) X (np_empty (N :: s))) as [H1 H2].
  destruct (FilterTransformer.loop self None (seq 0 N) (X, np_empty (N :: s)))
    as [[[X1 out1]|e] X2]; simpl in *; by subst.
Qed.

(** C4, what the code computes. Python reads [1e-4 * rand(n) - 0.5] as
    [(1e-4 * rand(n)) - 0.5]: for a uniform draw in [[0, 1)] the value added
    to the signal lies in [[-0.5, -0.4999)], not around zero in
    [[-0.5e-4, 0.5e-4]]. *)
Theorem noise_values_lie_near_minus_half :
  forall u : Q, 0 <= u -> u < 1 ->
    - (1 # 2) <= FilterTransformer.noise_value u /\
    FilterTransformer.noise_value u < - (4999 # 10000) /\
    ~ (- (1 # 20000) <= FilterTransformer.noise_value u /\
       FilterTransformer.noise_value u <= (1 # 20000)).
Proof.
  intros u H0 H1. unfold FilterTransformer.noise_value.
  split; [lra|]. split; [lra|]. intros [H2 H3]. lra.
Qed.

Lemma noise_values_lie_near_minus_half_witness :
  (0 <= (1 # 2) /\ (1 # 2) < 1) /\
  - (1 # 2) <= FilterTransformer.noise_value (1 # 2) /\
  FilterTransformer.noise_value (1 # 2) < - (4999 # 10000) /\
  ~ (- (1 # 20000) <= FilterTransformer.noise_value (1 # 2) /\
     FilterTransformer.noise_value (1 # 2) <= (1 # 20000)).
Proof.
  assert (0 <= (1 # 2)) as H0 by (unfold Qle; simpl; lia).
  assert ((1 # 2) < 1) as H1 by reflexivity.
  split; [exact (conj H0 H1)|].
  exact (noise_values_lie_near_minus_half (1 # 2) H0 H1).
Defined.

(** C3, what the code does. With noise enabled, [x += noise] writes through
    the view [x] into the caller's array: after [transform] with the
    identity filter on the one-signal batch [[0, 0]], the caller's array
    holds the noisy samples, as the returned array does. *)
Theorem filter_noise_overwrites_input :
  let self := FilterTransformer.init (fun x => Ok x) true in
  let X := NDArray [1; 2]%nat [0; 0] in
  let w := FilterTransformer.World X (FilterTransformer.MkRandom (fun _ => 0) 0) in
  let X' := NDArray [1; 2]%nat
              [0 + FilterTransformer.noise_value 0; 0 + FilterTransformer.noise_value 0] in
  FilterTransformer.transform self w
  = (Ok X', FilterTransformer.World X' (FilterTransformer.MkRandom (fun _ => 0) 2)) /\
  FilterTransformer.input (snd (FilterTransformer.transform self w)) <> X.
Proof.
  split; [reflexivity|]. simpl. intros H. discriminate H.
Qed.

Lemma length_flat_map_seq {A : Type} (g : nat -> list A) (k s n : nat) :
  (forall i, (s <= i < s + n)%nat -> length (g i) = k) ->
  length (flat_map g (seq s n)) = (n * k)%nat.
Proof.
  revert s. induction n as [|n IH]; intros s H; simpl; [done|].
  rewrite length_app, IH, H by (intros; try apply H; lia). done.
Qed.

Lemma nth_flat_map_seq {A : Type} (g : nat -> list A) (k s n i j : nat) (d : A) :
  (forall i, (s <= i < s + n)%nat -> length (g i) = k) ->
  (i < n)%nat -> (j < k)%nat ->
  nth (i * k + j) (flat_map g (seq s n)) d = nth j (g (s + i)%nat) d.
Proof.
  revert s i. induction n as [|n IH]; intros s i H Hi Hj; [lia|]. simpl.
  destruct i as [|i].
  - rewrite app_nth1 by (rewrite H; lia). simpl. by rewrite Nat.add_0_r.
  - rewrite app_nth2 by (rewrite H; lia).
    rewrite H by lia.
    replace (S i * k + j - k)%nat with (i * k + j)%nat by lia.
    rewrite IH by (intros; try apply H; lia).
    f_equal. f_equal. lia.
Qed.

Lemma nth_map_seq {A : Type} (f : nat -> A) (s n j : nat) (d : A) :
  (j < n)%nat -> nth j (map f (seq s n)) d = f (s + j)%nat.
Proof.
  intros H. rewrite (nth_indep _ d (f 0%nat)) by (rewrite length_map, length_seq; done).
  rewrite (map_nth f). by rewrite seq_nth.
Qed.

(** ** DiffTransformer *)

Section DiffFacts.

Import DiffTransformer.

Lemma diff1_spec (N T C : nat) (d : vec) :
  exists Y, diff1 (NDArray [N; T; C] d) = Ok Y /\
    shape Y = [N; (T - 1)%nat; C] /\
    length (data Y) = (N * ((T - 1) * C))%nat /\
    forall i r c, (i < N)%nat -> (r < T - 1)%nat -> (c < C)%nat ->
      get3 (T - 1) C (data Y) i r c = delta (fun t => get3 T C d i t c) r.
Proof.
  eexists. split; [reflexivity|]. simpl. rewrite Nat.mul_1_r.
  split; [done|].
  assert (forall i, length (flat_map (fun r => map (fun c =>
            get3 T C d i (r + 1) c - get3 T C d i r c) (seq 0 C)) (seq 0 (T - 1)))
          = ((T - 1) * C)%nat) as Hrow.
  { intros i. apply length_flat_map_seq. intros r _.
    by rewrite length_map, length_seq. }
  split.
  - apply length_flat_map_seq. intros i _. apply Hrow.
  - intros i r c Hi Hr Hc. unfold get3 at 1, delta.
    replace ((i * (T - 1) + r) * C + c)%nat with (i * ((T - 1) * C) + (r * C + c))%nat by lia.
    rewrite (nth_flat_map_seq _ ((T - 1) * C)) by (auto; nia).
    rewrite (nth_flat_map_seq _ C) by (intros; try rewrite length_map, length_seq; auto).
    by rewrite nth_map_seq.
Qed.

Lemma iter_delta_ext (n : nat) (f g : nat -> Q) (r : nat) :
  (forall t, (r <= t <= r + n)%nat -> f t = g t) ->
  Nat.iter n delta f r = Nat.iter n delta g r.
Proof.
  revert r. induction n as [|n IH]; intros r H; simpl.
  - apply H. lia.
  - unfold delta at 1 3. rewrite (IH (r + 1)%nat), (IH r); [done | |];
      intros t Ht; apply H; lia.
Qed.

Lemma diff_iter_spec (n N T C : nat) (d : vec) :
  exists Y, diff_iter n (NDArray [N; T; C] d) = Ok Y /\
    shape Y = [N; (T - n)%nat; C] /\
    forall i r c, (i < N)%nat -> (r < T - n)%nat -> (c < C)%nat ->
      get3 (T - n) C (data Y) i r c = Nat.iter n delta (fun t => get3 T C d i t c) r.
Proof.
  revert T d. induction n as [|n IH]; intros T d.
  - exists (NDArray [N; T; C] d). rewrite Nat.sub_0_r. by simpl.
  - destruct (diff1_spec N T C d) as ([s1 d1] & E1 & Hs1 & _ & Hd1).
    simpl in Hs1, Hd1. subst s1.
    destruct (IH (T - 1)%nat d1) as (Y & EY & HsY & HdY).
    exists Y. cbn [diff_iter]. rewrite E1. cbn [bind].
    replace (T - S n)%nat with (T - 1 - n)%nat by lia.
    split; [done|]. split; [done|].
    intros i r c Hi Hr Hc. rewrite HdY by done.
    rewrite Nat.iter_succ_r. apply iter_delta_ext.
    intros t Ht. apply Hd1; lia.
Qed.

(** C7, as the code has it. On a 3-D batch [transform] returns the
    first difference along axis 1 taken [n] times: the time axis of the
    result has length [T - n] for an order [n] from [0] to [T], and length
    0 for a larger order; every element is the [n]-fold difference of the
    samples from its position on, for [n = 1] the next sample minus the
    sample itself; with [flatten] the same elements come in shape
    [(N, T' * C)]. *)
Theorem diff_shortens_time_axis_by_order :
  forall (n : Z) (N T C : nat) (d : vec),
    (0 <= n)%Z ->
    let X := NDArray [N; T; C] d in
    let T' := (T - Z.to_nat n)%nat in
    exists Y,
      transform (init n false) X = Ok Y /\
      shape Y = [N; T'; C] /\
      ((n <= Z.of_nat T)%Z -> (Z.of_nat T' = Z.of_nat T - n)%Z) /\
      ((Z.of_nat T < n)%Z -> T' = 0%nat) /\
      (forall i r c, (i < N)%nat -> (r < T')%nat -> (c < C)%nat ->
         get3 T' C (data Y) i r c
         = Nat.iter (Z.to_nat n) delta (fun t => get3 T C d i t c) r) /\
      (n = 1%Z ->
       forall i r c, (i < N)%nat -> (r < T')%nat -> (c < C)%nat ->
         get3 T' C (data Y) i r c = get3 T C d i (r + 1) c - get3 T C d i r c) /\
      transform (init n true) X = Ok (NDArray [N; (T' * C)%nat] (data Y)).
Proof.
  intros n N T C d Hn X T'.
  destruct (diff_iter_spec (Z.to_nat n) N T C d) as (Y & EY & HsY & HdY).
  assert (np_diff X n = Ok Y) as Hnp.
  { unfold np_diff. destruct (Z.eqb_spec n 0) as [->|Hne]; [exact EY|].
    destruct (Z.ltb_spec n 0); [lia | exact EY]. }
  exists Y. unfold transform, init. cbn [DiffTransformer.n DiffTransformer.flatten].
  rewrite Hnp. cbn [bind].
  split; [done|]. split; [done|].
  split; [subst T'; lia|]. split; [subst T'; lia|].
  split; [exact HdY|]. split.
  - intros -> i r c Hi Hr Hc. rewrite HdY by done. reflexivity.
  - unfold shape_at. rewrite HsY. simpl. unfold reshape, size. rewrite HsY. simpl.
    fold T'. replace (N * (T' * C * 1) =? N * (T' * (C * 1)))%nat with true; [done|].
    symmetry. apply Nat.eqb_eq. lia.
Qed.

End DiffFacts.

Lemma diff_shortens_time_axis_by_order_witness :
  (0 <= 1)%Z /\
  exists Y,
    DiffTransformer.transform (DiffTransformer.init 1 false) (NDArray [1; 3; 2]%nat [1; 2; 4; 8; 16; 32]) = Ok Y /\
    shape Y = [1; 2; 2]%nat.
Proof.
  assert (0 <= 1)%Z as H by lia.
  split; [exact H|].
  destruct (diff_shortens_time_axis_by_order 1 1 3 2 [1; 2; 4; 8; 16; 32] H)
    as (Y & E & Hs & _).
  exists Y. split; [exact E | exact Hs].
Defined.

(** C7, as the claim has it, fails for an order above the length of the
    time axis: the second difference of a batch with one time sample has
    a time axis of length 0, which is not 2 below 1. *)
Lemma diff_above_length_is_not_shorter_by_order :
  let X := NDArray [1; 1; 1]%nat [5] in
  DiffTransformer.transform (DiffTransformer.init 2 false) X = Ok (NDArray [1; 0; 1]%nat []) /\
  (Z.of_nat 0 <> Z.of_nat 1 - 2)%Z.
Proof. split; [reflexivity | lia]. Qed.

Lemma for_enumerate_inv {A S : Type} (P : nat -> S -> Prop)
    (body : nat -> A -> S -> result S) (xs : list A) (i0 : nat) (s : S) :
  P i0 s ->
  (forall k x s, xs !! k = Some x -> P (i0 + k)%nat s ->
     exists s', body (i0 + k)%nat x s = Ok s' /\ P (Datatypes.S (i0 + k)) s') ->
  exists s', for_enumerate body i0 xs s = Ok s' /\ P (i0 + length xs)%nat s'.
Proof.
  revert i0 s. induction xs as [|x xs IH]; intros i0 s H0 Hstep; simpl.
  - exists s. by rewrite Nat.add_0_r.
  - destruct (Hstep 0%nat x s eq_refl) as (s1 & E1 & H1); [by rewrite Nat.add_0_r|].
    rewrite Nat.add_0_r in E1, H1. rewrite E1. simpl.
    destruct (IH (Datatypes.S i0) s1 H1) as (s2 & E2 & H2).
    + intros k y s' Hk HP.
      replace (Datatypes.S i0 + k)%nat with (i0 + Datatypes.S k)%nat in * by lia.
      by apply Hstep.
    + exists s2. split; [done|].
      by replace (i0 + Datatypes.S (length xs))%nat with (Datatypes.S i0 + length xs)%nat by lia.
Qed.





(** ** StatsTransformer *)

Section StatsFacts.

Import StatsTransformer.

Variables (N A B : nat) (d : vec) (axis : Z).
Hypothesis axis_valid : axis = 0%Z \/ axis = 1%Z.
Hypothesis shaped : length d = (N * (A * B))%nat.

Let X : ndarray := NDArray [N; A; B] d.
Let n_bins : nat := if (axis =? 0)%Z then B else A.








End StatsFacts.



















(** * Further properties of the transformers *)

(** ** Lists and arrays *)

Lemma length_concat_replicate {A : Type} (n : nat) (l : list A) :
  length (concat (replicate n l)) = (n * length l)%nat.
Proof.
  induction n as [|n IH]; simpl; [done|]. by rewrite length_app, IH.
Qed.

Lemma nth_concat_replicate {A : Type} (n k i : nat) (l : list A) (d : A) :
  (k < n)%nat -> (i < length l)%nat ->
  nth (k * length l + i) (concat (replicate n l)) d = nth i l d.
Proof.
  revert k. induction n as [|n IH]; intros k Hk Hi; [lia|]. simpl.
  destruct k as [|k].
  - simpl. by rewrite app_nth1.
  - rewrite app_nth2 by lia.
    replace (S k * length l + i - length l)%nat with (k * length l + i)%nat by lia.
    apply IH; lia.
Qed.

Lemma nth_zip_with_plus (l k : vec) (i : nat) :
  (i < length l)%nat -> (i < length k)%nat ->
  nth i (zip_with Qplus l k) 0 = nth i l 0 + nth i k 0.
Proof.
  revert k i. induction l as [|x l IH]; intros [|y k] i Hl Hk; simpl in *; try lia.
  destruct i as [|i]; [done|]. apply IH; lia.
Qed.

Lemma nth_take_lt (l : vec) (n i : nat) :
  (i < n)%nat -> nth i (take n l) 0 = nth i l 0.
Proof.
  revert n i. induction l as [|x l IH]; intros [|n] [|i] H; simpl; try done; try lia.
  apply IH. lia.
Qed.

Lemma rows_of_flat_map (ys : nat -> vec) (T s n i : nat) :
  (forall k, (s <= k < s + n)%nat -> length (ys k) = T) -> (i < n)%nat ->
  take T (drop (i * T) (flat_map ys (seq s n))) = ys (s + i)%nat.
Proof.
  revert s i. induction n as [|n IH]; intros s i H Hi; [lia|]. cbn [seq flat_map].
  destruct i as [|i].
  - rewrite Nat.mul_0_l, drop_0, Nat.add_0_r, take_app_length'; [done | rewrite H; lia].
  - replace (S i * T)%nat with (length (ys s) + i * T)%nat by (rewrite H; lia).
    rewrite drop_app_add, IH by (intros; try apply H; lia).
    f_equal. lia.
Qed.

Lemma flat_map_rows (d : vec) (T k m : nat) :
  flat_map (fun i => take T (drop (i * T) d)) (seq k m) = take (m * T) (drop (k * T) d).
Proof.
  revert k. induction m as [|m IH]; intros k; simpl; [done|].
  rewrite IH. replace (S k * T)%nat with (k * T + T)%nat by lia.
  rewrite <- drop_drop. apply take_take_drop.
Qed.

Lemma for_enumerate_app {A St : Type} (body : nat -> A -> St -> result St)
    (xs ys : list A) (i : nat) (s : St) :
  for_enumerate body i (xs ++ ys) s
  = (s' <- for_enumerate body i xs s ;; for_enumerate body (i + length xs) ys s').
Proof.
  revert i s. induction xs as [|x xs IH]; intros i s; simpl.
  - by rewrite Nat.add_0_r.
  - destruct (body i x s) as [s1|e]; simpl; [|done].
    rewrite IH. by replace (S i + length xs)%nat with (i + S (length xs))%nat by lia.
Qed.



(** Writing one row after the rows already written. *)
Lemma splice_row (pre row : vec) (k r T : nat) :
  length pre = (k * T)%nat -> length row = T ->
  splice (pre ++ replicate (S r * T) 0) (k * T) row = (pre ++ row) ++ replicate (r * T) 0.
Proof.
  intros Hpre Hrow. unfold splice.
  rewrite take_app_length' by done.
  rewrite <- Hpre, drop_app_add, Hrow. simpl.
  rewrite drop_replicate_add. by rewrite <- app_assoc.
Qed.

Lemma assign_item_row (out : ndarray) (N T k : nat) (row : vec) :
  shape out = [N; T] -> (k < N)%nat ->
  assign_item out k (NDArray [T] row)
  = Ok (NDArray [N; T] (splice (data out) (k * T) row)).
Proof.
  intros Hs Hk. unfold assign_item. rewrite Hs.
  destruct (Nat.ltb_spec k N) as [_|]; [|lia].
  unfold broadcast. cbn [shape data]. rewrite Nat.eqb_refl. cbn [bind numel foldr].
  by rewrite Nat.mul_1_r.
Qed.

Lemma np_empty_rows (N T : nat) :
  np_empty [N; T] = NDArray [N; T] ([] ++ replicate (N * T) 0).
Proof. unfold np_empty. simpl. by rewrite Nat.mul_1_r. Qed.

Lemma length_row (d : vec) (N T k : nat) :
  length d = (N * T)%nat -> (k < N)%nat -> length (take T (drop (k * T) d)) = T.
Proof.
  intros Hd Hk. rewrite length_take, length_drop, Hd. apply Nat.min_l.
  assert (exists m, N = k + 1 + m)%nat as [m ->] by (exists (N - k - 1)%nat; lia).
  rewrite !Nat.mul_add_distr_r. lia.
Qed.

Lemma item_row (d : vec) (N T k : nat) :
  item (NDArray [N; T] d) k = NDArray [T] (take T (drop (k * T) d)).
Proof. unfold item. simpl. by rewrite Nat.mul_1_r. Qed.


Lemma tabulate2_get2 (h w : nat) (d : vec) :
  length d = (h * w)%nat ->
  tabulate2 h w (fun r c => get2 w d (if (h =? 1)%nat then 0%nat else r)
                                     (if (w =? 1)%nat then 0%nat else c)) = d.
Proof.
  intros Hd. unfold tabulate2.
  assert (forall r, (0 <= r < 0 + h)%nat ->
            length (map (fun c => get2 w d (if (h =? 1)%nat then 0%nat else r)
                                           (if (w =? 1)%nat then 0%nat else c)) (seq 0 w)) = w)
    as Hrow by (intros; by rewrite length_map, length_seq).
  apply (nth_ext _ _ 0 0).
  - rewrite (length_flat_map_seq _ w) by done. lia.
  - intros n Hn. rewrite (length_flat_map_seq _ w) in Hn by done.
    assert (0 < w)%nat as Hw by (destruct w; lia).
    pose proof (Nat.div_mod_eq n w) as En.
    pose proof (Nat.mod_upper_bound n w ltac:(lia)) as Hm.
    assert (n / w < h)%nat as Hr by (apply Nat.Div0.div_lt_upper_bound; lia).
    rewrite En at 1. rewrite (Nat.mul_comm w).
    rewrite (nth_flat_map_seq _ w) by done.
    rewrite nth_map_seq by done. unfold get2. simpl. f_equal.
    destruct (Nat.eqb_spec h 1) as [->|_]; destruct (Nat.eqb_spec w 1) as [->|_]; lia.
Qed.

(** numpy's binary search returns the number of elements that are [<= v]
    when the array is in ascending order. *)
Lemma bsearch_right_spec (fuel : nat) (a : vec) (v : Q) (lo hi : nat) :
  ascending a ->
  (lo <= hi <= length a)%nat -> (hi - lo < fuel)%nat ->
  (forall i, (i < lo)%nat -> nth i a 0 <= v) ->
  (forall i, (hi <= i < length a)%nat -> v < nth i a 0) ->
  let k := bsearch_right fuel a v lo hi in
  (lo <= k <= hi)%nat /\
  (forall i, (i < k)%nat -> nth i a 0 <= v) /\
  (forall i, (k <= i < length a)%nat -> v < nth i a 0).
Proof.
  intros Hasc. revert lo hi.
  induction fuel as [|fuel IH]; intros lo hi Hb Hfuel Hlo Hhi; [lia|].
  cbn [bsearch_right]. destruct (Nat.ltb_spec lo hi) as [Hlt|Hge].
  - assert ((hi - lo) / 2 < hi - lo)%nat by (apply Nat.div_lt; lia).
    set (mid := (lo + (hi - lo) / 2)%nat) in *.
    destruct (Qle_bool (nth mid a 0) v) eqn:E.
    + apply Qle_bool_iff in E.
      destruct (IH (S mid) hi) as (H1 & H2 & H3); try (done || lia).
      * intros i Hi. apply Qle_trans with (nth mid a 0); [|done].
        apply Hasc. lia.
      * split; [lia|]. by split.
    + assert (v < nth mid a 0) as Hv.
      { apply Qnot_le_lt. intros H'. apply Qle_bool_iff in H'. congruence. }
      destruct (IH lo mid) as (H1 & H2 & H3); try (done || lia).
      * intros i Hi. apply Qlt_le_trans with (nth mid a 0); [done|].
        apply Hasc. lia.
      * split; [lia|]. by split.
  - split; [lia|]. split; [done|]. intros i Hi. apply Hhi. lia.
Qed.

(** ** SpectrogramTransformer: the constructor and the clip step *)

(** X1. A [noverlap] argument given as a fraction in [[0, 1)] of a positive
    [NFFT] is stored as a whole number of samples from 0 to [NFFT - 1]: the
    constructor turns every such fraction into an overlap that is strictly
    below the window length. *)
Theorem fraction_overlap_is_below_NFFT :
  forall pad N_FFT nov clip dt lg fl tr w,
    (0 < N_FFT)%Z -> 0 <= nov -> nov < 1 ->
    exists k : Z,
      SpectrogramTransformer.noverlap
        (SpectrogramTransformer.init pad N_FFT nov clip dt lg fl tr w) = inject_Z k /\
      (0 <= k < N_FFT)%Z.
Proof.
  intros pad N_FFT nov clip dt lg fl tr w HN H0 H1.
  unfold SpectrogramTransformer.init. cbn [SpectrogramTransformer.noverlap].
  apply Qltb_lt in H1 as E. rewrite E.
  eexists. split; [reflexivity|].
  destruct nov as [a b]. unfold py_int, Qle, Qlt in *. simpl in *.
  split.
  - apply Z.quot_pos; nia.
  - apply Z.quot_lt_upper_bound; nia.
Qed.

Lemma fraction_overlap_is_below_NFFT_witness :
  ((0 < 256)%Z /\ 0 <= (3 # 4) /\ (3 # 4) < 1) /\
  exists k : Z,
    SpectrogramTransformer.noverlap
      (SpectrogramTransformer.init None 256 (3 # 4) 1000 SpectrogramTransformer.float32
         true true false SpectrogramTransformer.WNone) = inject_Z k /\
    (0 <= k < 256)%Z.
Proof.
  assert (0 < 256)%Z as H0 by lia.
  assert (0 <= (3 # 4)) as H1 by (unfold Qle; simpl; lia).
  assert ((3 # 4) < 1) as H2 by reflexivity.
  split; [exact (conj H0 (conj H1 H2))|].
  exact (fraction_overlap_is_below_NFFT None 256%Z (3 # 4) 1000
           SpectrogramTransformer.float32 true true false SpectrogramTransformer.WNone
           H0 H1 H2).
Defined.

(** X2. Building an instance again from the attributes of an instance, as
    a copy by parameters does, gives the same instance whenever [NFFT] and
    the [noverlap] argument are not negative: the conversion of the
    fraction is not applied a second time. *)
Theorem init_is_stable_under_reconstruction :
  forall pad N_FFT nov clip dt lg fl tr w,
    (0 <= N_FFT)%Z -> 0 <= nov ->
    let self := SpectrogramTransformer.init pad N_FFT nov clip dt lg fl tr w in
    SpectrogramTransformer.init
      (SpectrogramTransformer.pad_to self) (SpectrogramTransformer.NFFT self)
      (SpectrogramTransformer.noverlap self) (SpectrogramTransformer.clip self)
      (SpectrogramTransformer.dtype self) (SpectrogramTransformer.log self)
      (SpectrogramTransformer.flatten self) (SpectrogramTransformer.transpose self)
      (SpectrogramTransformer.window self) = self.
Proof.
  intros pad N_FFT nov clip dt lg fl tr w HN H0 self. subst self.
  unfold SpectrogramTransformer.init at 2 3 4 5 6 7 8 9 10 11.
  cbn [SpectrogramTransformer.pad_to SpectrogramTransformer.NFFT SpectrogramTransformer.noverlap
       SpectrogramTransformer.clip SpectrogramTransformer.dtype SpectrogramTransformer.log
       SpectrogramTransformer.flatten SpectrogramTransformer.transpose SpectrogramTransformer.window].
  unfold SpectrogramTransformer.init.
  destruct (Qltb nov 1) eqn:E.
  - set (k := py_int (inject_Z N_FFT * nov)).
    assert (0 <= k)%Z as Hk.
    { subst k. destruct nov as [a b]. unfold py_int, Qle in *. simpl in *.
      apply Z.quot_pos; nia. }
    destruct (Qltb (inject_Z k) 1) eqn:E2; [|done].
    apply Qltb_lt in E2. unfold Qlt in E2. simpl in E2.
    assert (k = 0)%Z as -> by lia.
    do 2 f_equal. unfold py_int. simpl. rewrite Z.mul_0_r. reflexivity.
  - by rewrite E.
Qed.

Lemma init_is_stable_under_reconstruction_witness :
  ((0 <= 256)%Z /\ 0 <= (1 # 1000)) /\
  SpectrogramTransformer.init None 256
    (SpectrogramTransformer.noverlap
       (SpectrogramTransformer.init None 256 (1 # 1000) 1000 SpectrogramTransformer.float32
          true true false SpectrogramTransformer.WNone))
    1000 SpectrogramTransformer.float32 true true false SpectrogramTransformer.WNone
  = SpectrogramTransformer.init None 256 (1 # 1000) 1000 SpectrogramTransformer.float32
      true true false SpectrogramTransformer.WNone.
Proof.
  assert (0 <= 256)%Z as H0 by lia.
  assert (0 <= (1 # 1000)) as H1 by (unfold Qle; simpl; lia).
  split; [exact (conj H0 H1)|].
  exact (init_is_stable_under_reconstruction None 256%Z (1 # 1000) 1000
           SpectrogramTransformer.float32 true true false SpectrogramTransformer.WNone H0 H1).
Defined.

(** X3. With [clip] below 1000 and the frequencies in ascending order, the
    clip step keeps the first [k] rows of the spectrogram unchanged, where
    row [i] is among them exactly when its frequency is at most [clip]:
    a frequency equal to [clip] is kept, every higher one is cut. *)
Theorem clip_keeps_frequencies_up_to_clip :
  forall (self : SpectrogramTransformer.t) (freqs : vec) (Pxx : ndarray) (F W : nat),
    ascending freqs ->
    SpectrogramTransformer.clip self < 1000 ->
    shape Pxx = [F; W] -> length freqs = F ->
    let k := searchsorted_right freqs (SpectrogramTransformer.clip self) in
    SpectrogramTransformer.clip_step self freqs Pxx
    = NDArray [k; W] (take (k * W) (data Pxx)) /\
    (k <= F)%nat /\
    forall i, (i < F)%nat ->
      ((i < k)%nat <-> nth i freqs 0 <= SpectrogramTransformer.clip self).
Proof.
  intros self freqs Pxx F W Hasc Hclip Hs HF k.
  destruct (bsearch_right_spec (S (length freqs)) freqs (SpectrogramTransformer.clip self)
              0 (length freqs) Hasc) as (Hk & Hle & Hgt); try lia.
  fold (searchsorted_right freqs (SpectrogramTransformer.clip self)) in Hk, Hle, Hgt.
  fold k in Hk, Hle, Hgt.
  split; [|split].
  - unfold SpectrogramTransformer.clip_step. apply Qltb_lt in Hclip as ->.
    fold k. unfold take_rows. rewrite Hs. cbn [numel foldr].
    rewrite Nat.min_l, Nat.mul_1_r by lia. done.
  - lia.
  - intros i Hi. split.
    + apply Hle.
    + intros Hv. destruct (Nat.lt_ge_cases i k) as [|Hge]; [done|].
      exfalso. apply (Qlt_not_le _ _ (Hgt i ltac:(lia))). exact Hv.
Qed.

Lemma clip_keeps_frequencies_up_to_clip_witness :
  let self := SpectrogramTransformer.init None 4 2 500 SpectrogramTransformer.float32
                false true false SpectrogramTransformer.WNone in
  let freqs := [0; 500; 1000] in
  let Pxx := NDArray [3; 2]%nat [1; 2; 3; 4; 5; 6] in
  (ascending freqs /\ SpectrogramTransformer.clip self < 1000 /\
   shape Pxx = [3; 2]%nat /\ length freqs = 3%nat) /\
  SpectrogramTransformer.clip_step self freqs Pxx = NDArray [2; 2]%nat [1; 2; 3; 4].
Proof.
  intros self freqs Pxx.
  assert (ascending freqs) as H1.
  { intros i j Hij. simpl in Hij.
    destruct i as [|[|[|i]]]; destruct j as [|[|[|j]]]; try lia;
      unfold Qle; simpl; lia. }
  assert (SpectrogramTransformer.clip self < 1000) as H2 by reflexivity.
  assert (shape Pxx = [3; 2]%nat) as H3 by reflexivity.
  assert (length freqs = 3%nat) as H4 by reflexivity.
  split; [exact (conj H1 (conj H2 (conj H3 H4)))|].
  exact (proj1 (clip_keeps_frequencies_up_to_clip self freqs Pxx 3 2 H1 H2 H3 H4)).
Defined.

(** ** SpectrogramTransformer: the output of [transform] *)

Section SpectrogramStacking.

Import SpectrogramTransformer.

Variable specgram :
  ndarray -> Z -> Q -> option Z -> Q -> window_arg -> result (ndarray * vec * vec).
Variable log10 : Q -> Q.
Variables window_hanning window_none : vec -> vec.

Variables (self : t) (N h c : nat).

Let T : nat := (h * c)%nat.
Let out_shape : list nat := if flatten self then [N; T] else [N; h; c].

(** The end of the loop body for a spectrogram of shape [(h, c)]: row [k]
    of the output, which is allocated when there is none yet. *)
Lemma store_row (k : nat) (p : vec) (st : option ndarray) :
  length p = T -> (k < N)%nat ->
  match st with Some out => shape out = out_shape | None => True end ->
  store self N k (NDArray [h; c] p) st
  = Ok (Some (NDArray out_shape
          (splice (match st with Some out => data out | None => replicate (N * T) 0 end)
                  (k * T) p))).
Proof.
  intros Hp Hk Hst. unfold store, out_shape in *.
  assert (numel [h; c] = T) as HT by (subst T; simpl; lia).
  destruct (flatten self).
  - assert (flatten_array (NDArray [h; c] p) = NDArray [T] p) as ->
      by (unfold flatten_array, size; cbn [shape data]; by rewrite HT).
    destruct st as [out|]; cbn [bind].
    + by rewrite (assign_item_row out N T).
    + unfold size. cbn [shape]. rewrite HT, (assign_item_row _ N T) by done.
      rewrite np_empty_rows. done.
  - assert (forall out, shape out = [N; h; c] ->
              assign_item out k (NDArray [h; c] p)
              = Ok (NDArray [N; h; c] (splice (data out) (k * T) p))) as Hassign.
    { intros out Hs. unfold assign_item. rewrite Hs.
      destruct (Nat.ltb_spec k N) as [_|]; [|lia].
      unfold broadcast. cbn [shape data]. rewrite !Nat.eqb_refl. cbn [orb andb bind].
      rewrite tabulate2_get2 by done. by rewrite HT. }
    destruct st as [out|]; cbn [bind].
    + by rewrite Hassign.
    + unfold shape_at. cbn [shape lookup list_lookup bind].
      rewrite Hassign by done. unfold np_empty. cbn [data numel foldr].
      replace (N * (h * (c * 1)))%nat with (N * T)%nat by (subst T; lia). done.
Qed.

Variables (s : list nat) (d : vec) (P : nat -> vec).

Let X : ndarray := NDArray (N :: s) d.
Let w : window_arg := resolve_window window_hanning window_none (window self).

Let body : nat -> ndarray -> option ndarray -> result (option ndarray) :=
  fun i X_i X_prime =>
    Pxx <- spectrum specgram log10 clip_step self w X_i ;;
    store self N i Pxx X_prime.

Let stacked (k : nat) : option ndarray :=
  match k with
  | O => None
  | S _ => Some (NDArray out_shape (flat_map P (seq 0 k) ++ replicate ((N - k) * T) 0))
  end.

(** The value of [X_prime] after the first [k] signals, when each of them
    has a spectrogram of shape [(h, c)]. *)
Lemma stack_prefix (k : nat) :
  (k <= N)%nat ->
  (forall i, (i < k)%nat ->
     spectrum specgram log10 clip_step self w (item X i) = Ok (NDArray [h; c] (P i)) /\
     length (P i) = T) ->
  for_enumerate body 0 (map (item X) (seq 0 k)) None = Ok (stacked k).
Proof.
  intros Hk HP.
  destruct (for_enumerate_inv (fun i st => st = stacked i) body
              (map (item X) (seq 0 k)) 0 None) as (st & E & Hst).
  - done.
  - intros i x st Hi ->. change (0 + i)%nat with i in *.
    rewrite list_lookup_fmap in Hi.
    destruct (seq 0 k !! i) as [i'|] eqn:Ei; [|done].
    apply lookup_seq in Ei as [-> Hlt]. simpl in Hi. injection Hi as <-.
    destruct (HP i Hlt) as [Espec Hlen].
    subst body. cbv beta. rewrite Espec. cbn [bind].
    rewrite store_row; [|done|lia|by destruct i].
    eexists. split; [reflexivity|]. unfold stacked. do 3 f_equal.
    assert (length (flat_map P (seq 0 i)) = (i * T)%nat) as Hpre.
    { apply length_flat_map_seq. intros j Hj. apply HP. lia. }
    replace (match (match i with O => None | S _ => _ end) with
             | Some out => data out | None => replicate (N * T) 0 end)
      with (flat_map P (seq 0 i) ++ replicate (S (N - S i) * T) 0).
    2: { destruct i; cbn [data].
         - replace (S (N - 1)) with N by lia. done.
         - replace (S (N - S (S i))) with (N - S i)%nat by lia. done. }
    rewrite splice_row by done.
    rewrite seq_S, flat_map_app. simpl. by rewrite app_nil_r.
  - rewrite length_map, length_seq in Hst. simpl in Hst. by subst st.
Qed.

End SpectrogramStacking.

Section SpectrogramBatches.

Import SpectrogramTransformer.

Variable specgram :
  ndarray -> Z -> Q -> option Z -> Q -> window_arg -> result (ndarray * vec * vec).
Variable log10 : Q -> Q.
Variables window_hanning window_none : vec -> vec.


(** X5. With [flatten], a signal after the first whose spectrogram has
    another number of elements than those before it, and more than one,
    makes [transform] raise a [ValueError] at the write of its row: no
    array is returned for a batch of spectrograms of different sizes. *)
Theorem spectrum_size_mismatch_raises :
  forall (self : t) (N h c : nat) (s : list nat) (d : vec) (P : nat -> vec)
         (k : nat) (Pk : ndarray),
    let X := NDArray (N :: s) d in
    let w := resolve_window window_hanning window_none (window self) in
    flatten self = true ->
    (0 < k < N)%nat ->
    (forall i, (i < k)%nat ->
       spectrum specgram log10 clip_step self w (item X i) = Ok (NDArray [h; c] (P i)) /\
       length (P i) = (h * c)%nat) ->
    spectrum specgram log10 clip_step self w (item X k) = Ok Pk ->
    size Pk <> (h * c)%nat -> size Pk <> 1%nat ->
    transform specgram log10 window_hanning window_none self X = Raise ValueError.
Proof.
  intros self N h c s d P k Pk X w Hfl Hk HP Ek Hsize Hone. subst X w.
  unfold transform, transform_with, iter. cbn [shape bind].
  rewrite length_map, length_seq.
  replace N with (k + S (N - S k))%nat at 2 by lia.
  rewrite seq_app, map_app, for_enumerate_app. cbn [seq map].
  pose proof (stack_prefix specgram log10 window_hanning window_none self N h c s d P k
                ltac:(lia) HP) as E.
  cbv zeta in E. rewrite E. cbn [bind for_enumerate].
  rewrite length_map, length_seq. cbn [Nat.add]. rewrite Ek. cbn [bind].
  destruct k as [|k']; [lia|]. rewrite Hfl.
  unfold store. rewrite Hfl. cbn [bind]. unfold assign_item. cbn [shape].
  destruct (Nat.ltb_spec (S k') N) as [_|]; [|lia].
  unfold broadcast, flatten_array. cbn [shape data].
  destruct (Nat.eqb_spec (size Pk) (h * c)) as [|_]; [done|].
  destruct (Nat.eqb_spec (size Pk) 1) as [|_]; [done|]. done.
Qed.

End SpectrogramBatches.


Lemma spectrum_size_mismatch_raises_witness :
  let specgram := fun (x : ndarray) (_ : Z) (_ : Q) (_ : option Z) (_ : Q)
                      (_ : SpectrogramTransformer.window_arg) =>
    if Qle_bool (nth 0 (data x) 0) 0
    then Ok (NDArray [1; 2]%nat [1; 1], [0], [0])
    else Ok (NDArray [1; 3]%nat [1; 1; 1], [0], [0]) in
  let self := SpectrogramTransformer.init None 4 2 1000 SpectrogramTransformer.float32
                false true false SpectrogramTransformer.WNone in
  let X := NDArray [2; 1]%nat [0; 1] in
  (SpectrogramTransformer.flatten self = true /\ (0 < 1 < 2)%nat) /\
  SpectrogramTransformer.transform specgram SpectrogramTransformer.log10_stub
    SpectrogramTransformer.window_stub SpectrogramTransformer.window_stub self X
  = Raise ValueError.
Proof.
  intros specgram self X.
  assert (SpectrogramTransformer.flatten self = true) as H0 by reflexivity.
  assert (0 < 1 < 2)%nat as H1 by lia.
  split; [exact (conj H0 H1)|].
  refine (spectrum_size_mismatch_raises specgram SpectrogramTransformer.log10_stub
            SpectrogramTransformer.window_stub SpectrogramTransformer.window_stub
            self 2 1 2 [1%nat] [0; 1] (fun _ => [1; 1]) 1 (NDArray [1; 3]%nat [1; 1; 1])
            H0 H1 _ _ _ _).
  - intros i Hi. destruct i as [|i]; [split; reflexivity | lia].
  - reflexivity.
  - vm_compute. lia.
  - vm_compute. lia.
Defined.

(** ** SpectrogramTransformer: the transpose step *)

Lemma nth_tabulate2 (h w : nat) (f : nat -> nat -> Q) (r c : nat) :
  (r < h)%nat -> (c < w)%nat -> nth (r * w + c) (tabulate2 h w f) 0 = f r c.
Proof.
  intros Hr Hc. unfold tabulate2.
  rewrite (nth_flat_map_seq _ w) by (intros; try rewrite length_map, length_seq; done).
  by rewrite nth_map_seq.
Qed.

Lemma tabulate2_nth_ext (h w : nat) (f : nat -> nat -> Q) (d : vec) :
  length d = (h * w)%nat ->
  (forall r c, (r < h)%nat -> (c < w)%nat -> f r c = nth (r * w + c) d 0) ->
  tabulate2 h w f = d.
Proof.
  intros Hd Hf.
  assert (length (tabulate2 h w f) = (h * w)%nat) as Hlen.
  { unfold tabulate2. apply length_flat_map_seq. intros. by rewrite length_map, length_seq. }
  apply (nth_ext _ _ 0 0); [lia|].
  intros n Hn. rewrite Hlen in Hn.
  assert (0 < w)%nat as Hw by (destruct w; lia).
  pose proof (Nat.div_mod_eq n w) as En.
  pose proof (Nat.mod_upper_bound n w ltac:(lia)) as Hm.
  assert (n / w < h)%nat as Hr by (apply Nat.Div0.div_lt_upper_bound; lia).
  rewrite En, (Nat.mul_comm w).
  rewrite nth_tabulate2 by done. by apply Hf.
Qed.

Section SpectrogramTranspose.

Import SpectrogramTransformer.

Variable specgram :
  ndarray -> Z -> Q -> option Z -> Q -> window_arg -> result (ndarray * vec * vec).
Variable log10 : Q -> Q.

(** X6. The transpose step is reversible: where an instance without
    [transpose] gives a signal the spectrogram [Pxx] of shape [(h, c)], the
    same instance with [transpose] gives the array of shape [(c, h)] whose
    element [(k, r)] is element [(r, k)] of [Pxx], and transposing that
    array again gives [Pxx] back. *)
Theorem transpose_step_is_reversible :
  forall pad N_FFT nov cl dt lg fl wd (w : window_arg) (X_i Pxx : ndarray) (h c : nat),
    let self := fun tr => Build pad N_FFT nov cl dt lg fl tr wd in
    spectrum specgram log10 clip_step (self false) w X_i = Ok Pxx ->
    shape Pxx = [h; c] -> length (data Pxx) = (h * c)%nat ->
    exists Pt,
      spectrum specgram log10 clip_step (self true) w X_i = Ok Pt /\
      shape Pt = [c; h] /\
      (forall r k, (r < h)%nat -> (k < c)%nat ->
         get2 h (data Pt) k r = get2 c (data Pxx) r k) /\
      transpose_array Pt = Pxx.
Proof.
  intros pad N_FFT nov cl dt lg fl wd w X_i Pxx h c self E Hs Hl.
  unfold spectrum, clip_step in *. subst self.
  cbn [NFFT pad_to noverlap log transpose clip] in *.
  destruct (specgram _ _ _ _ _ _) as [[[P0 freqs] ts]|e]; cbn [bind] in *; [|done].
  injection E as E. rewrite E.
  destruct Pxx as [sP dP]. simpl in Hs, Hl. subst sP.
  eexists. split; [reflexivity|].
  unfold transpose_array at 2. cbn [shape data].
  split; [done|]. split.
  - intros r k Hr Hk. unfold get2 at 1. by rewrite nth_tabulate2.
  - unfold transpose_array. cbn [shape data]. f_equal.
    apply tabulate2_nth_ext; [lia|].
    intros r k Hr Hk. unfold get2 at 1. by rewrite nth_tabulate2.
Qed.

End SpectrogramTranspose.

Lemma transpose_step_is_reversible_witness :
  let self := fun tr => SpectrogramTransformer.Build None 4 2 1000
                SpectrogramTransformer.float32 false true tr SpectrogramTransformer.WNone in
  let X_i := NDArray [6]%nat (replicate 6 0) in
  let Pxx := NDArray [3; 2]%nat (replicate 6 0) in
  (SpectrogramTransformer.spectrum SpectrogramTransformer.specgram_zero
     SpectrogramTransformer.log10_stub SpectrogramTransformer.clip_step (self false)
     SpectrogramTransformer.WNone X_i = Ok Pxx /\
   shape Pxx = [3; 2]%nat /\ length (data Pxx) = (3 * 2)%nat) /\
  exists Pt,
    SpectrogramTransformer.spectrum SpectrogramTransformer.specgram_zero
      SpectrogramTransformer.log10_stub SpectrogramTransformer.clip_step (self true)
      SpectrogramTransformer.WNone X_i = Ok Pt /\
    shape Pt = [2; 3]%nat.
Proof.
  intros self X_i Pxx.
  assert (SpectrogramTransformer.spectrum SpectrogramTransformer.specgram_zero
            SpectrogramTransformer.log10_stub SpectrogramTransformer.clip_step (self false)
            SpectrogramTransformer.WNone X_i = Ok Pxx) as H0 by reflexivity.
  assert (shape Pxx = [3; 2]%nat) as H1 by reflexivity.
  assert (length (data Pxx) = (3 * 2)%nat) as H2 by reflexivity.
  split; [exact (conj H0 (conj H1 H2))|].
  destruct (transpose_step_is_reversible SpectrogramTransformer.specgram_zero
              SpectrogramTransformer.log10_stub None 4%Z 2 1000
              SpectrogramTransformer.float32 false true SpectrogramTransformer.WNone
              SpectrogramTransformer.WNone X_i Pxx 3 2 H0 H1 H2) as (Pt & E & Hs & _).
  exists Pt. split; [exact E | exact Hs].
Defined.

(** ** StatsTransformer *)












(** X7. With an [axis] other than 0 and 1 neither branch assigns [n_bins]:
    [transform] raises the [UnboundLocalError] of that variable on every
    array that has a first axis, whatever its other axes and its content,
    and an [IndexError] on a 0-d array. *)
Theorem invalid_axis_raises_unbound_local :
  forall (stats : list (vec -> result Q)) (axis : Z) (X : ndarray),
    axis <> 0%Z -> axis <> 1%Z ->
    StatsTransformer.transform (StatsTransformer.Build stats axis) X
    = match shape X with
      | [] => Raise IndexError
      | _ :: _ => Raise (UnboundLocalError "n_bins")
      end.
Proof.
  intros stats axis X H0 H1. unfold StatsTransformer.transform, shape_at.
  cbn [StatsTransformer.axis].
  destruct (Z.eqb_spec axis 0) as [|_]; [done|].
  destruct (Z.eqb_spec axis 1) as [|_]; [done|].
  by destruct (shape X).
Qed.

Lemma invalid_axis_raises_unbound_local_witness :
  (2 <> 0 /\ 2 <> 1)%Z /\
  StatsTransformer.transform (StatsTransformer.init 2) (NDArray [1; 2; 2]%nat [1; 2; 3; 4])
  = Raise (UnboundLocalError "n_bins").
Proof.
  assert (2 <> 0)%Z as H0 by lia.
  assert (2 <> 1)%Z as H1 by lia.
  split; [exact (conj H0 H1)|].
  exact (invalid_axis_raises_unbound_local
           (StatsTransformer.stats (StatsTransformer.init 2)) 2
           (NDArray [1; 2; 2]%nat [1; 2; 3; 4]) H0 H1).
Defined.



(** ** WhitenerTransformer: [_flatten], [fit] and [transform] *)

Lemma numel_cons2 (n m : nat) (s : list nat) :
  numel ((n * m)%nat :: s) = numel (n :: m :: s).
Proof. simpl. lia. Qed.

Section WhitenerFacts.

Import WhitenerTransformer.

Variable pca_model : Type.
Variable pca_new : option nat -> pca_model.
Variable pca_fit : pca_model -> ndarray -> ndarray -> result unit * pca_model.
Variable pca_transform : pca_model -> ndarray -> result ndarray.

Lemma flatten_X_ok (N A : nat) (rest : list nat) (d : vec) :
  flatten_X (NDArray (N :: A :: rest) d) = Ok (NDArray ((N * A)%nat :: rest) d).
Proof.
  unfold flatten_X, shape_at, reshape, size. cbn [shape lookup list_lookup bind drop data].
  rewrite numel_cons2. by rewrite Nat.eqb_refl.
Qed.


(** X10. [fit] without labels unpacks the one array that [_flatten]
    returns into [_X, _y]: unless the flattened batch has exactly two rows
    this raises a [ValueError] and the instance stays as it was, and with
    two rows the estimator is fitted on the first row, with the second in
    the place of the labels. *)
Theorem fit_without_labels_needs_two_rows :
  forall (self : t pca_model) (N A : nat) (rest : list nat) (d : vec),
    let X := NDArray (N :: A :: rest) d in
    let _X := NDArray ((N * A)%nat :: rest) d in
    ((N * A)%nat <> 2%nat ->
       fit pca_model pca_new pca_fit self X None = (Raise ValueError, self)) /\
    ((N * A)%nat = 2%nat ->
       let r := pca_fit (pca_new (n_components pca_model self)) (item _X 0) (item _X 1) in
       fit pca_model pca_new pca_fit self X None
       = (fst r, Build pca_model (n_components pca_model self) (Some (snd r)))).
Proof.
  intros self N A rest d X _X.
  unfold fit, fit_arguments. subst X. rewrite flatten_X_ok. fold _X.
  unfold iter. cbn [bind shape _X].
  split; intros H.
  - destruct (N * A)%nat as [|[|[|n]]]; try done.
  - rewrite H. simpl. by destruct (pca_fit _ _ _).
Qed.


(** X12. On an instance that holds an estimator, [transform] of a batch of
    shape [(N, A, B)] with [N * A > 0] returns what the estimator makes of
    the flattened batch, in the shape [(N, A, k)] for an estimator output
    of [N * A * k] elements; on a batch with [N * A = 0] the inferred
    last length makes the final [reshape] raise a [ValueError]. *)
Theorem transform_restores_leading_axes :
  forall (self : t pca_model) (m : pca_model) (N A B k : nat) (d : vec) (Z : ndarray),
    pca pca_model self = Some m ->
    pca_transform m (NDArray [(N * A)%nat; B] d) = Ok Z ->
    size Z = (N * A * k)%nat ->
    let X := NDArray [N; A; B] d in
    ((0 < N * A)%nat ->
       transform pca_model pca_transform self X = Ok (NDArray [N; A; k] (data Z))) /\
    ((N * A)%nat = 0%nat ->
       transform pca_model pca_transform self X = Raise ValueError).
Proof.
  intros self m N A B k d Z Hm HZ Hsize X.
  unfold transform. rewrite Hm. subst X. rewrite flatten_X_ok. cbn [bind].
  rewrite HZ. cbn [bind]. unfold reshape_infer_last. rewrite Hsize.
  cbn [shape removelast numel foldr]. rewrite Nat.mul_1_r.
  split; intros H.
  - destruct (Nat.eqb_spec (N * A) 0) as [|_]; [lia|].
    rewrite (Nat.mul_comm (N * A) k), Nat.Div0.mod_mul, Nat.div_mul by lia. done.
  - rewrite H. done.
Qed.

End WhitenerFacts.


Lemma fit_without_labels_needs_two_rows_witness :
  let self := WhitenerTransformer.init unit None in
  (3 * 2 <> 2)%nat /\
  WhitenerTransformer.fit unit (fun _ => tt) (fun m _ _ => (Ok tt, m)) self
    (NDArray [3; 2; 1]%nat [1; 2; 3; 4; 5; 6]) None
  = (Raise ValueError, self).
Proof.
  intros self.
  assert (3 * 2 <> 2)%nat as H by (simpl; lia).
  split; [exact H|].
  exact (proj1 (fit_without_labels_needs_two_rows unit (fun _ => tt) (fun m _ _ => (Ok tt, m))
                  self 3 2 [1%nat] [1; 2; 3; 4; 5; 6]) H).
Defined.


Lemma transform_restores_leading_axes_witness :
  let self := WhitenerTransformer.Build unit None (Some tt) in
  let d := replicate 8 1 in
  (WhitenerTransformer.pca unit self = Some tt /\
   Ok (NDArray [(2 * 2)%nat; 2%nat] d) = Ok (NDArray [4; 2]%nat d) /\
   size (NDArray [4; 2]%nat d) = (2 * 2 * 2)%nat /\ (0 < 2 * 2)%nat) /\
  WhitenerTransformer.transform unit (fun _ a => Ok a) self (NDArray [2; 2; 2]%nat d)
  = Ok (NDArray [2; 2; 2]%nat d).
Proof.
  intros self d.
  assert (WhitenerTransformer.pca unit self = Some tt) as H0 by reflexivity.
  assert (Ok (NDArray [(2 * 2)%nat; 2%nat] d) = Ok (NDArray [4; 2]%nat d)) as H1 by reflexivity.
  assert (size (NDArray [4; 2]%nat d) = (2 * 2 * 2)%nat) as H2 by reflexivity.
  assert (0 < 2 * 2)%nat as H3 by (simpl; lia).
  split; [exact (conj H0 (conj H1 (conj H2 H3)))|].
  exact (proj1 (transform_restores_leading_axes unit (fun _ a => Ok a) self tt 2 2 2 2 d
                  (NDArray [4; 2]%nat d) H0 H1 H2) H3).
Defined.

(** ** FlattenTransformer and FuncTransformer *)




(** X14. [FuncTransformer.transform] on a batch with an empty first axis
    raises a [ValueError] at its first, unused [reshape], before the
    function is called; on a batch with at least one signal that reshape
    succeeds and the result is the function's output in the input's shape,
    so that a function which returns its argument gives back the input. *)
Theorem func_transform_on_batch :
  forall (self : FuncTransformer.t) (N : nat) (s : list nat) (d : vec),
    let X := NDArray (N :: s) d in
    (N = 0%nat -> FuncTransformer.transform self X = Raise ValueError) /\
    ((0 < N)%nat ->
       FuncTransformer.transform self X
       = (Y <- FuncTransformer.func self X ;; reshape Y (N :: s))) /\
    ((0 < N)%nat -> FuncTransformer.func self X = Ok X ->
       FuncTransformer.transform self X = Ok X).
Proof.
  intros self N s d X.
  assert ((0 < N)%nat ->
          FuncTransformer.transform self X
          = (Y <- FuncTransformer.func self X ;; reshape Y (N :: s))) as Hpos.
  { intros HN. unfold FuncTransformer.transform, shape_at, reshape_infer_last. simpl.
    destruct (Nat.eqb_spec (N * 1) 0) as [|_]; [lia|].
    replace (size X) with (numel s * (N * 1))%nat by (unfold size, X; simpl; lia).
    rewrite Nat.Div0.mod_mul. simpl.
    destruct (FuncTransformer.func self _) as [Y|e]; simpl; [|done].
    by destruct (reshape Y (N :: s)). }
  split; [|split].
  - intros ->. reflexivity.
  - exact Hpos.
  - intros HN E. rewrite Hpos, E by done. simpl.
    unfold reshape, size. simpl. by rewrite Nat.eqb_refl.
Qed.

Lemma func_transform_on_batch_witness :
  let self := FuncTransformer.init (fun x => Ok x) in
  let X := NDArray [2; 2]%nat [1; 2; 3; 4] in
  ((0 < 2)%nat /\ FuncTransformer.func self X = Ok X) /\
  FuncTransformer.transform self X = Ok X.
Proof.
  intros self X.
  assert (0 < 2)%nat as H0 by lia.
  assert (FuncTransformer.func self X = Ok X) as H1 by reflexivity.
  split; [exact (conj H0 H1)|].
  exact (proj2 (proj2 (func_transform_on_batch self 2 [2%nat] [1; 2; 3; 4])) H0 H1).
Defined.

(** ** FilterTransformer *)

Section FilterFacts.

Import FilterTransformer.

Variables (N T : nat) (d : vec).
Hypothesis shaped : length d = (N * T)%nat.

Let X : ndarray := NDArray [N; T] d.

Lemma loop_without_noise_rows (self : t) (ys : nat -> vec) :
  (forall i, (i < N)%nat ->
     filter self (item X i) = Ok (NDArray [T] (ys i)) /\ length (ys i) = T) ->
  forall m k pre, (k + m = N)%nat -> length pre = (k * T)%nat ->
    loop self None (seq k m) (X, NDArray [N; T] (pre ++ replicate (m * T) 0))
    = (Ok (X, NDArray [N; T] (pre ++ flat_map ys (seq k m))), X).
Proof.
  intros Hf. induction m as [|m IH]; intros k pre Hk Hpre; [done|].
  cbn [seq loop step]. destruct (Hf k ltac:(lia)) as [-> Hy]. cbn [bind].
  rewrite (assign_item_row _ N T) by (done || lia). cbn [data].
  rewrite splice_row by done.
  rewrite IH by (rewrite ?length_app; lia).
  cbn [flat_map]. by rewrite <- app_assoc.
Qed.

Lemma transform_without_noise_rows (self : t) (ys : nat -> vec) (g : RandomState) :
  noise self = false ->
  (forall i, (i < N)%nat ->
     filter self (item X i) = Ok (NDArray [T] (ys i)) /\ length (ys i) = T) ->
  transform self (World X g)
  = (Ok (NDArray [N; T] (flat_map ys (seq 0 N))), World X g).
Proof.
  intros Hn Hf. unfold transform. rewrite Hn. cbn [input random shape X].
  rewrite np_empty_rows.
  fold X. by rewrite (loop_without_noise_rows self ys Hf N 0 []) by done.
Qed.

Lemma iadd_item_row (nz : vec) (k : nat) :
  length nz = T -> (k < N)%nat ->
  iadd_item (NDArray [N; T] (noisy_rows T nz d k)) k (NDArray [T] nz)
  = Ok (NDArray [N; T] (noisy_rows T nz d (S k))).
Proof.
  intros Hnz Hk. unfold iadd_item. rewrite item_row.
  unfold broadcast, size. cbn [shape data numel foldr]. rewrite Nat.eqb_refl. cbn [bind].
  rewrite Nat.mul_1_r. f_equal. f_equal.
  assert (length (take (k * T) d) = (k * T)%nat) as Htake.
  { rewrite length_take, shaped. apply Nat.min_l, Nat.mul_le_mono_r. lia. }
  assert (length (concat (replicate k nz)) = (k * T)%nat) as Hcat.
  { rewrite <- Hnz. apply length_concat_replicate. }
  assert (length (zip_with Qplus (take (k * T) d) (concat (replicate k nz))) = (k * T)%nat)
    as Hzip.
  { rewrite length_zip_with. lia. }
  unfold noisy_rows at 1 2. unfold splice.
  rewrite (drop_app_length' _ _ (k * T)) by done.
  rewrite (take_app_length' _ _ (k * T)) by done.
  rewrite length_zip_with, (length_row d N), Hnz, Nat.min_id by done.
  rewrite (drop_app_add' _ _ (k * T) T) by done. rewrite drop_drop.
  unfold noisy_rows. replace (S k * T)%nat with (k * T + T)%nat by lia.
  rewrite <- take_take_drop, replicate_S_end, concat_app. simpl concat.
  rewrite app_nil_r, zip_with_app by lia. by rewrite <- app_assoc.
Qed.

Lemma loop_with_noise (self : t) (nz : vec) :
  length nz = T ->
  forall m k out, (k + m = N)%nat ->
    let r := loop self (Some (NDArray [T] nz)) (seq k m)
               (NDArray [N; T] (noisy_rows T nz d k), out) in
    exists j, (k <= j <= N)%nat /\ ((0 < m)%nat -> (k < j)%nat) /\
      snd r = NDArray [N; T] (noisy_rows T nz d j) /\
      (forall X' out', fst r = Ok (X', out') ->
         j = N /\ X' = NDArray [N; T] (noisy_rows T nz d N)).
Proof.
  intros Hnz. induction m as [|m IH]; intros k out Hk r; subst r.
  - exists k. simpl. split; [lia|]. split; [lia|]. split; [done|].
    intros X' out' [= <- _]. assert (k = N) as -> by lia. done.
  - cbn [seq loop step]. rewrite iadd_item_row by (done || lia).
    destruct (y <- filter self _ ;; assign_item out k y) as [out1|e].
    + destruct (IH (S k) out1 ltac:(lia)) as (j & Hj & _ & Hsnd & Hfst).
      exists j. split; [lia|]. split; [lia|]. split; [exact Hsnd | exact Hfst].
    + exists (S k). simpl. split; [lia|]. split; [lia|]. split; [done|]. discriminate.
Qed.

Lemma nth_noisy_rows (nz : vec) (j i t : nat) :
  length nz = T -> (j <= N)%nat -> (i < j)%nat -> (t < T)%nat ->
  get2 T (noisy_rows T nz d j) i t = get2 T d i t + nth t nz 0.
Proof.
  intros Hnz Hj Hi Ht. unfold get2, noisy_rows.
  assert (i * T + t < j * T)%nat as Hlt.
  { assert (exists m, j = i + 1 + m)%nat as [m ->] by (exists (j - i - 1)%nat; lia).
    rewrite !Nat.mul_add_distr_r. lia. }
  assert (length (take (j * T) d) = (j * T)%nat) as Htake.
  { rewrite length_take, shaped. apply Nat.min_l, Nat.mul_le_mono_r. lia. }
  assert (length (concat (replicate j nz)) = (j * T)%nat) as Hcat.
  { rewrite <- Hnz. apply length_concat_replicate. }
  rewrite app_nth1 by (rewrite length_zip_with; lia).
  rewrite nth_zip_with_plus, nth_take_lt by lia.
  f_equal. pose proof (nth_concat_replicate j i t nz 0 Hi ltac:(lia)) as E.
  rewrite Hnz in E. exact E.
Qed.

End FilterFacts.

(** X15. Without noise, on a batch of shape [(N, T)] and with a filter
    that returns for every row an array of [T] values, [transform] returns
    an array of the shape of the batch whose row [i] is what the filter
    returns for row [i], and leaves the batch and the random state as they
    were. *)
Theorem filter_applies_to_each_row :
  forall (self : FilterTransformer.t) (N T : nat) (d : vec) (g : FilterTransformer.RandomState),
    FilterTransformer.noise self = false ->
    length d = (N * T)%nat ->
    let X := NDArray [N; T] d in
    (forall i, (i < N)%nat ->
       exists y, FilterTransformer.filter self (item X i) = Ok y /\
                 shape y = [T] /\ length (data y) = T) ->
    exists out,
      FilterTransformer.transform self (FilterTransformer.World X g)
      = (Ok out, FilterTransformer.World X g) /\
      shape out = [N; T] /\ length (data out) = (N * T)%nat /\
      forall i, (i < N)%nat -> FilterTransformer.filter self (item X i) = Ok (item out i).
Proof.
  intros self N T d g Hn Hd X Hf.
  set (ys := fun i => data (result_get (NDArray [] []) (FilterTransformer.filter self (item X i)))).
  assert (forall i, (i < N)%nat ->
            FilterTransformer.filter self (item X i) = Ok (NDArray [T] (ys i)) /\
            length (ys i) = T) as Hys.
  { intros i Hi. destruct (Hf i Hi) as ([s y] & E & Hs & Hl). simpl in Hs, Hl.
    subst ys. cbv beta. rewrite E. simpl. by subst s. }
  exists (NDArray [N; T] (flat_map ys (seq 0 N))).
  split; [by apply transform_without_noise_rows|]. split; [done|]. split.
  - cbn [data]. apply length_flat_map_seq. intros i Hi. apply Hys. lia.
  - intros i Hi. rewrite item_row.
    rewrite (rows_of_flat_map ys T 0 N i) by (intros; try apply Hys; lia).
    apply Hys. exact Hi.
Qed.

(** X16. With the identity as filter and without noise, [transform]
    returns an array equal to the batch and leaves the batch and the random
    state as they were. *)
Theorem identity_filter_returns_input :
  forall (N T : nat) (d : vec) (g : FilterTransformer.RandomState),
    length d = (N * T)%nat ->
    let X := NDArray [N; T] d in
    FilterTransformer.transform (FilterTransformer.init (fun x => Ok x) false)
      (FilterTransformer.World X g)
    = (Ok X, FilterTransformer.World X g).
Proof.
  intros N T d g Hd X.
  rewrite (transform_without_noise_rows N T d Hd _ (fun i => take T (drop (i * T) d))).
  - rewrite flat_map_rows, drop_0, take_ge by lia. done.
  - done.
  - intros i Hi. simpl. rewrite item_row. split; [done | by apply (length_row d N)].
Qed.

(** X17. With noise, one call on a batch of shape [(N, T)] draws [T]
    random numbers, once, and adds the same vector of [noise_value]s to
    every row it reaches, in the caller's array: the rows [0 .. j-1] of the
    array after the call are the rows before it plus that vector, where
    [j] is at least 1 on a batch that has a signal and is [N] whenever the
    call returns. *)
Theorem noise_is_added_to_every_row :
  forall (self : FilterTransformer.t) (N T : nat) (d : vec) (g : FilterTransformer.RandomState),
    FilterTransformer.noise self = true ->
    length d = (N * T)%nat ->
    let X := NDArray [N; T] d in
    let r := FilterTransformer.transform self (FilterTransformer.World X g) in
    let nz := data (fst (FilterTransformer.make_noise T g)) in
    FilterTransformer.random (snd r)
    = FilterTransformer.MkRandom (FilterTransformer.draws g) (FilterTransformer.consumed g + T) /\
    (forall t, (t < T)%nat ->
       nth t nz 0
       = FilterTransformer.noise_value
           (FilterTransformer.draws g (FilterTransformer.consumed g + t)%nat)) /\
    exists j, (j <= N)%nat /\ ((0 < N)%nat -> (0 < j)%nat) /\
      (is_ok (fst r) = true -> j = N) /\
      FilterTransformer.input (snd r) = NDArray [N; T] (noisy_rows T nz d j) /\
      forall i t, (i < j)%nat -> (t < T)%nat ->
        get2 T (noisy_rows T nz d j) i t = get2 T d i t + nth t nz 0.
Proof.
  intros self N T d g Hn Hd X r nz.
  assert (length nz = T) as Hnz.
  { subst nz. simpl. by rewrite !length_map, length_seq. }
  assert (noisy_rows T nz d 0 = d) as H0 by reflexivity.
  pose proof (loop_with_noise N T d Hd self nz Hnz N 0 (np_empty [N; T]) eq_refl) as Hloop.
  cbv zeta in Hloop. rewrite H0 in Hloop.
  destruct Hloop as (j & Hj & Hpos & Hsnd & Hfst).
  assert (r = (let '(res, X') := FilterTransformer.loop self (Some (NDArray [T] nz)) (seq 0 N)
                                   (NDArray [N; T] d, np_empty [N; T]) in
               (match res with Ok (_, out') => Ok out' | Raise e => Raise e end,
                FilterTransformer.World X'
                  (FilterTransformer.MkRandom (FilterTransformer.draws g)
                     (FilterTransformer.consumed g + T))))) as Hr.
  { subst r. unfold FilterTransformer.transform. rewrite Hn.
    unfold shape_at. cbn [FilterTransformer.input FilterTransformer.random shape X
                          lookup list_lookup bind].
    subst nz. unfold FilterTransformer.make_noise, FilterTransformer.rand. cbn [fst data].
    destruct (FilterTransformer.loop _ _ _ _) as [[[X1 out1]|e] X2]; reflexivity. }
  destruct (FilterTransformer.loop _ _ _ _) as [res X2]. simpl in Hsnd, Hfst. subst X2.
  rewrite Hr. split; [by destruct res as [[? ?]|?]|]. split.
  - intros t Ht. subst nz. simpl. rewrite map_map, nth_map_seq by done. done.
  - exists j. split; [lia|]. split; [exact Hpos|]. split; [|split].
    + destruct res as [[X1 out1]|e]; simpl; [|discriminate].
      intros _. by destruct (Hfst X1 out1 eq_refl).
    + by destruct res as [[? ?]|?].
    + intros i t Hi Ht. apply (nth_noisy_rows N T d Hd); (done || lia).
Qed.

(** X18. Without noise, and for a filter that does not write to its
    argument, [transform] leaves the caller's array and the random state
    as they were for every input, also when the call raises. *)
Theorem transform_without_noise_leaves_world :
  forall (self : FilterTransformer.t) (w : FilterTransformer.world),
    FilterTransformer.noise self = false ->
    snd (FilterTransformer.transform self w) = w.
Proof. exact transform_without_noise_keeps_world. Qed.

Lemma filter_applies_to_each_row_witness :
  let self := FilterTransformer.init (fun x => Ok (NDArray (shape x) (map (fun v => v + 1) (data x)))) false in
  let d := [1; 2; 3; 4] in
  let g := FilterTransformer.MkRandom (fun _ => 0) 0 in
  (FilterTransformer.noise self = false /\ length d = (2 * 2)%nat) /\
  exists out,
    FilterTransformer.transform self (FilterTransformer.World (NDArray [2; 2]%nat d) g)
    = (Ok out, FilterTransformer.World (NDArray [2; 2]%nat d) g) /\
    shape out = [2; 2]%nat.
Proof.
  intros self d g.
  assert (FilterTransformer.noise self = false) as H0 by reflexivity.
  assert (length d = (2 * 2)%nat) as H1 by reflexivity.
  split; [exact (conj H0 H1)|].
  destruct (filter_applies_to_each_row self 2 2 d g H0 H1) as (out & E & Hs & _).
  - intros i Hi. eexists. split; [reflexivity|].
    destruct i as [|[|i]]; [split; reflexivity | split; reflexivity | lia].
  - exists out. split; [exact E | exact Hs].
Defined.

Lemma identity_filter_returns_input_witness :
  let d := [1; 2; 3; 4; 5; 6] in
  let g := FilterTransformer.MkRandom (fun _ => 0) 0 in
  length d = (2 * 3)%nat /\
  FilterTransformer.transform (FilterTransformer.init (fun x => Ok x) false)
    (FilterTransformer.World (NDArray [2; 3]%nat d) g)
  = (Ok (NDArray [2; 3]%nat d), FilterTransformer.World (NDArray [2; 3]%nat d) g).
Proof.
  intros d g.
  assert (length d = (2 * 3)%nat) as H by reflexivity.
  split; [exact H|].
  exact (identity_filter_returns_input 2 3 d g H).
Defined.

Lemma noise_is_added_to_every_row_witness :
  let self := FilterTransformer.init (fun x => Ok x) true in
  let d := [1; 2; 3; 4] in
  let g := FilterTransformer.MkRandom (fun _ => 1 # 2) 5 in
  (FilterTransformer.noise self = true /\ length d = (2 * 2)%nat) /\
  FilterTransformer.random
    (snd (FilterTransformer.transform self (FilterTransformer.World (NDArray [2; 2]%nat d) g)))
  = FilterTransformer.MkRandom (fun _ => 1 # 2) (5 + 2).
Proof.
  intros self d g.
  assert (FilterTransformer.noise self = true) as H0 by reflexivity.
  assert (length d = (2 * 2)%nat) as H1 by reflexivity.
  split; [exact (conj H0 H1)|].
  exact (proj1 (noise_is_added_to_every_row self 2 2 d g H0 H1)).
Defined.

Lemma transform_without_noise_leaves_world_witness :
  let self := FilterTransformer.init (fun _ => Raise TypeError) false in
  let w := FilterTransformer.World (NDArray [1; 2]%nat [1; 2])
             (FilterTransformer.MkRandom (fun _ => 0) 0) in
  FilterTransformer.noise self = false /\
  snd (FilterTransformer.transform self w) = w.
Proof.
  intros self w.
  assert (FilterTransformer.noise self = false) as H by reflexivity.
  split; [exact H|].
  exact (transform_without_noise_leaves_world self w H).
Defined.

(** ** DiffTransformer *)

Lemma diff_iter_add (a b : nat) (X : ndarray) :
  DiffTransformer.diff_iter (a + b) X
  = (Y <- DiffTransformer.diff_iter a X ;; DiffTransformer.diff_iter b Y).
Proof.
  revert X. induction a as [|a IH]; intros X; simpl; [done|].
  destruct (DiffTransformer.diff1 X) as [X1|e]; simpl; [apply IH | done].
Qed.

Lemma np_diff_nonneg (X : ndarray) (n : Z) :
  (0 <= n)%Z -> DiffTransformer.np_diff X n = DiffTransformer.diff_iter (Z.to_nat n) X.
Proof.
  intros H. unfold DiffTransformer.np_diff.
  destruct (Z.eqb_spec n 0) as [->|]; [done|].
  destruct (Z.ltb_spec n 0); [lia | done].
Qed.



(** X19. Differences compose: for orders [a] and [b] that are not
    negative, the transformer of order [a + b] returns on every input what
    the transformer of order [b] returns on the unflattened output of the
    transformer of order [a], errors included. *)
Theorem diff_orders_add :
  forall (a b : Z) (fl : bool) (X : ndarray),
    (0 <= a)%Z -> (0 <= b)%Z ->
    DiffTransformer.transform (DiffTransformer.init (a + b) fl) X
    = (Y <- DiffTransformer.transform (DiffTransformer.init a false) X ;;
       DiffTransformer.transform (DiffTransformer.init b fl) Y).
Proof.
  intros a b fl X Ha Hb. unfold DiffTransformer.transform, DiffTransformer.init.
  cbn [DiffTransformer.n DiffTransformer.flatten].
  rewrite !np_diff_nonneg by lia.
  rewrite Z2Nat.inj_add, diff_iter_add by lia.
  destruct (DiffTransformer.diff_iter (Z.to_nat a) X) as [Y|e]; simpl; [|done].
  by rewrite np_diff_nonneg by lia.
Qed.

Lemma diff_orders_add_witness :
  let X := NDArray [1; 4; 1]%nat [1; 4; 9; 16] in
  ((0 <= 1)%Z /\ (0 <= 1)%Z) /\
  DiffTransformer.transform (DiffTransformer.init (1 + 1) false) X
  = (Y <- DiffTransformer.transform (DiffTransformer.init 1 false) X ;;
     DiffTransformer.transform (DiffTransformer.init 1 false) Y).
Proof.
  intros X.
  assert (0 <= 1)%Z as H by lia.
  split; [exact (conj H H)|].
  exact (diff_orders_add 1 1 false X H H).
Defined.




